(** * Scripts/eval_bucketing.py: adjacency-aware bucketing of classifier
    output against manual labels.

    Python values are embedded shallowly: [str] as [string] (the bytes of
    its UTF-8 encoding), [dict] as [gmap], [set] as [gset], a list as
    [list], [None]-able arguments as [option]. [PyStr.lower] and
    [PyStr.strip] are [str.lower] and [str.strip] on ASCII text; what is
    stated of these two methods for every string is stated over the methods
    as parameters ([Generic], [py_str_methods]). *)

From Stdlib Require Import Ascii.
From Stdlib Require String.
From stdpp Require Import base decidable option list gmap strings fin_maps pretty sorting.

(** ** The [str] methods the script calls *)

Module PyStr.

(** [str.isspace] on one character of the ASCII range. *)
Definition is_space (a : ascii) : bool :=
  match a with
  | "009" | "010" | "011" | "012" | "013"
  | "028" | "029" | "030" | "031" | " " => true
  | _ => false
  end%char.

Definition is_upper (a : ascii) : bool :=
  let n := nat_of_ascii a in (65 <=? n)%nat && (n <=? 90)%nat.

Definition lower_char (a : ascii) : ascii :=
  if is_upper a then ascii_of_nat (nat_of_ascii a + 32) else a.

(** [s.lower()] on ASCII text: the letters A to Z are lower-cased. For text
    beyond ASCII see [py_str_methods] below. *)
Fixpoint lower (s : string) : string :=
  match s with
  | "" => ""
  | String a s' => String (lower_char a) (lower s')
  end.

(** [s.lstrip()] *)
Fixpoint lstrip (s : string) : string :=
  match s with
  | "" => ""
  | String a s' => if is_space a then lstrip s' else s
  end.

(** [s.rstrip()] *)
Fixpoint rstrip (s : string) : string :=
  match s with
  | "" => ""
  | String a s' =>
      match rstrip s' with
      | "" => if is_space a then "" else String a ""
      | r => String a r
      end
  end.

(** [s.strip()] on ASCII text: the ASCII white space is stripped. For text
    beyond ASCII see [py_str_methods] below. *)
Definition strip (s : string) : string := rstrip (lstrip s).

(** [s.startswith(p)] *)
Fixpoint startswith (p s : string) : bool :=
  match p, s with
  | "", _ => true
  | String a p', String b s' => if decide (a = b) then startswith p' s' else false
  | String _ _, "" => false
  end.

(** [k in s] for strings: [k] occurs in [s] as a contiguous run. *)
Fixpoint contains (k s : string) : bool :=
  startswith k s ||
  match s with
  | "" => false
  | String _ s' => contains k s'
  end.

(** [s.split(sep)] for a non-empty [sep]: [cur] is the piece being read,
    [skip] counts the characters of a separator still to be dropped. *)
Fixpoint split_go (sep : string) (skip : nat) (cur : string) (s : string)
  : list string :=
  match s with
  | "" => [cur]
  | String a s' =>
      match skip with
      | S k => split_go sep k cur s'
      | O =>
          if startswith sep s
          then cur :: split_go sep (String.length sep - 1) "" s'
          else split_go sep 0 (cur +:+ String a "") s'
      end
  end.

Definition split (sep s : string) : list string := split_go sep 0 "" s.

(** [s.replace(old, new)] for a non-empty [old]. *)
Fixpoint replace_go (old new : string) (skip : nat) (s : string) : string :=
  match s with
  | "" => ""
  | String a s' =>
      match skip with
      | S k => replace_go old new k s'
      | O =>
          if startswith old s
          then new +:+ replace_go old new (String.length old - 1) s'
          else String a (replace_go old new 0 s')
      end
  end.

Definition replace (old new s : string) : string := replace_go old new 0 s.

(** Truthiness of a string: [not s] holds of the empty string only. *)
Definition truthy (s : string) : bool :=
  match s with "" => false | _ => true end.

End PyStr.

(** ** The static tables *)

Definition EMOTION_MAP : gmap string string := list_to_map [
  ("happy", "joy"); ("excited", "joy"); ("proud", "joy"); ("grateful", "joy");
  ("relieved", "joy"); ("motivated", "joy"); ("loved", "joy"); ("satisfied", "joy");
  ("sad", "sadness"); ("lonely", "sadness"); ("tired", "sadness"); ("ashamed", "sadness");
  ("embarrassed", "sadness"); ("bored", "sadness"); ("guilty", "sadness");
  ("angry", "anger"); ("frustrated", "anger");
  ("afraid", "fear"); ("anxious", "fear"); ("stressed", "fear");
  ("surprised", "surprise");
  ("disgusted", "disgust");
  ("neutral", "neutral"); ("mixed", "mixed") ].

Definition DOMAIN_ALIAS : gmap string string := list_to_map [
  ("exercise", "exercise/fitness"); ("fitness", "exercise/fitness");
  ("exercise/fitness", "exercise/fitness");
  ("family", "family");
  ("friends", "friends");
  ("relationships", "relationships/marriage/partnership");
  ("marriage", "relationships/marriage/partnership");
  ("partnership", "relationships/marriage/partnership");
  ("relationships/marriage/partnership", "relationships/marriage/partnership");
  ("love", "love/romance"); ("romance", "love/romance"); ("love/romance", "love/romance");
  ("food", "food/eating"); ("eating", "food/eating"); ("food/eating", "food/eating");
  ("sleep", "sleep/rest"); ("rest", "sleep/rest"); ("sleep/rest", "sleep/rest");
  ("health", "health/medical"); ("medical", "health/medical");
  ("health/medical", "health/medical");
  ("work", "work/career"); ("career", "work/career"); ("work/career", "work/career");
  ("money", "money/finances"); ("finances", "money/finances");
  ("finance", "money/finances"); ("money/finances", "money/finances");
  ("school", "school/learning"); ("learning", "school/learning");
  ("school/learning", "school/learning");
  ("spirituality", "spirituality/religion"); ("religion", "spirituality/religion");
  ("spirituality/religion", "spirituality/religion");
  ("recreation", "recreation/leisure"); ("leisure", "recreation/leisure");
  ("recreation/leisure", "recreation/leisure");
  ("travel", "travel/nature"); ("nature", "travel/nature");
  ("travel/nature", "travel/nature");
  ("creativity", "creativity/art"); ("art", "creativity/art");
  ("creativity/art", "creativity/art");
  ("community", "community/society/politics"); ("society", "community/society/politics");
  ("politics", "community/society/politics");
  ("community/society/politics", "community/society/politics");
  ("technology", "technology/media/internet"); ("media", "technology/media/internet");
  ("internet", "technology/media/internet");
  ("technology/media/internet", "technology/media/internet");
  ("self", "self/growth/habits"); ("growth", "self/growth/habits");
  ("habits", "self/growth/habits"); ("self/growth/habits", "self/growth/habits") ].

Definition EMOTION_ADJ : gmap string (gset string) := list_to_map [
  ("joy", {[ "neutral" ]});
  ("neutral", {[ "joy"; "sadness" ]});
  ("sadness", {[ "anger"; "fear"; "neutral" ]});
  ("anger", {[ "sadness" ]});
  ("fear", {[ "sadness" ]});
  ("surprise", ∅);
  ("disgust", {[ "anger"; "sadness" ]});
  ("mixed", {[ "joy"; "sadness"; "anger"; "fear"; "surprise"; "disgust"; "neutral" ]}) ].

Definition DOMAIN_ADJ : gset (string * string) := list_to_set [
  ("love/romance", "relationships/marriage/partnership");
  ("work/career", "money/finances");
  ("health/medical", "exercise/fitness");
  ("food/eating", "health/medical");
  ("family", "friends");
  ("travel/nature", "recreation/leisure");
  ("creativity/art", "recreation/leisure");
  ("technology/media/internet", "recreation/leisure");
  ("school/learning", "self/growth/habits") ].

(** [d.get(k, default)] *)
Definition dict_get {V} (d : gmap string V) (k : string) (default : V) : V :=
  match d !! k with
  | Some v => v
  | None => default
  end.

(** ** Label normalisation *)

Definition EMOTION_NAMES : list string :=
  ["Joy"; "Sadness"; "Anger"; "Fear"; "Surprise"; "Disgust"; "Neutral"; "Mixed"].

(** The [for k in [...]: if k in s: return k.lower()] loop: [Some] is the
    value returned from inside the loop, [None] means the loop ran out. *)
Fixpoint first_name_in (ks : list string) (s : string) : option string :=
  match ks with
  | [] => None
  | k :: ks' => if PyStr.contains k s then Some (PyStr.lower k) else first_name_in ks' s
  end.

Definition normalize_emotion_label (e : option string) : string :=
  match e with
  | None => ""
  | Some s =>
      match first_name_in EMOTION_NAMES s with
      | Some r => r
      | None => PyStr.lower (PyStr.strip s)
      end
  end.

Definition canonical_domain (s : option string) : string :=
  match s with
  | None => ""
  | Some s =>
      let s := PyStr.lower (PyStr.strip s) in
      dict_get DOMAIN_ALIAS s s
  end.

Definition is_domain_adjacent (a b : string) : bool :=
  if negb (PyStr.truthy a) || negb (PyStr.truthy b) then false
  else
    let x := PyStr.lower a in
    let y := PyStr.lower b in
    bool_decide (x = y) || bool_decide ((x, y) ∈ DOMAIN_ADJ)
    || bool_decide ((y, x) ∈ DOMAIN_ADJ).

(** ** Rows with their derived columns, and the two bucket functions *)

Record Row := {
  manual_emotions_coarse : list string;
  classifier_emotion_norm : string;
  manual_domains_canon : list string;
  classifier_domain_norm : string
}.

(** [set(lst)] *)
Definition py_set (lst : list string) : gset string := list_to_set lst.

(** [k in EMOTION_ADJ and v in EMOTION_ADJ[k]] *)
Definition adj_lists (k v : string) : bool :=
  match EMOTION_ADJ !! k with
  | Some s => bool_decide (v ∈ s)
  | None => false
  end.

(** The condition inside [any(...)] of [bucket_emotion], for one manual
    label [mm]: the stored table is looked up in both directions. *)
Definition adjacency_test (c mm : string) : bool :=
  adj_lists c mm || adj_lists mm c.

Definition bucket_emotion (row : Row) : Z :=
  let mset := py_set (manual_emotions_coarse row) in
  let c := classifier_emotion_norm row in
  if bool_decide (mset = ∅) && negb (PyStr.truthy c) then 2
  else if bool_decide (c ∈ mset) then 1
  else if bool_decide (c = "mixed") && bool_decide (1 < size mset) then 2
  else if existsb (adjacency_test c) (elements mset) then 2
  else 3.

Definition bucket_domain (row : Row) : Z :=
  let mset := py_set (filter (fun x => PyStr.truthy x = true) (manual_domains_canon row)) in
  let c := classifier_domain_norm row in
  if bool_decide (mset = ∅) && negb (PyStr.truthy c) then 2
  else if bool_decide (c ∈ mset) then 1
  else if PyStr.contains "/" c
          && existsb (fun p => bool_decide (p ∈ mset)) (PyStr.split "/" c) then 1
  else if existsb (fun mm => is_domain_adjacent c mm) (elements mset) then 2
  else 3.


(** ** Python objects held in table cells *)

(** What [pd.read_csv] puts in a cell: a missing value (the float [nan]),
    a boolean, an integer or a string. *)
Inductive cell :=
| CNaN
| CBool (b : bool)
| CInt (z : Z)
| CStr (s : string).

(** Values of [ast.literal_eval] and of the list-valued columns. *)
#[warnings="-register-all"]
Inductive pyval :=
| PNone
| PBool (b : bool)
| PInt (z : Z)
| PNaN
| PStr (s : string)
| PList (l : list pyval).

Definition of_cell (x : cell) : pyval :=
  match x with
  | CNaN => PNaN
  | CBool b => PBool b
  | CInt z => PInt z
  | CStr s => PStr s
  end.

(** [isinstance(v, list)] *)
Definition is_list (v : pyval) : bool :=
  match v with PList _ => true | _ => false end.

(** [.astype(str)] on one cell. *)
Definition astype_str (x : cell) : string :=
  match x with
  | CNaN => "nan"
  | CBool true => "True"
  | CBool false => "False"
  | CInt z => pretty z
  | CStr s => s
  end.

(** ** A fragment of [ast.literal_eval]

    [ast] is Python's library, so [ensure_list] below takes the evaluator as
    a parameter: [None] stands for any raised [Exception].  The fragment
    defined here evaluates what the examples feed it, with Python's result:
    [None], [True], [False], decimal integers with an optional minus sign,
    strings in single or double quotes without backslash, and lists of
    those, blanks allowed between tokens. It answers [None] on every other
    text, also where Python accepts more (floats, tuples, dicts, escapes). *)

Module LiteralEval.

Definition squote : ascii := "'"%char.
Definition dquote : ascii := "034"%char.
Definition backslash : ascii := "\"%char.

Definition is_blank (a : ascii) : bool :=
  match a with " " | "009" => true | _ => false end%char.

Fixpoint skip_blanks (s : string) : string :=
  match s with
  | String a s' => if is_blank a then skip_blanks s' else s
  | "" => ""
  end.

Definition digit (a : ascii) : option Z :=
  Z.of_nat <$> Ascii.is_nat a.

(** The longest run of digits at the head of [s], and what follows. *)
Fixpoint span_digits (s : string) : list Z * string :=
  match s with
  | String a s' =>
      match digit a with
      | Some d => let '(ds, r) := span_digits s' in (d :: ds, r)
      | None => ([], s)
      end
  | "" => ([], "")
  end.

(** A decimal integer literal: no leading zero unless every digit is 0. *)
Definition int_of_digits (ds : list Z) : option Z :=
  match ds with
  | [] => None
  | 0%Z :: ds' =>
      if forallb (Z.eqb 0) ds' then Some 0%Z else None
  | _ => Some (fold_left (fun acc d => (10 * acc + d)%Z) ds 0%Z)
  end.

(** The body of a quoted string up to the closing quote [q]. *)
Fixpoint read_quoted (q : ascii) (s : string) : option (string * string) :=
  match s with
  | "" => None
  | String a s' =>
      if bool_decide (a = q) then Some ("", s')
      else if bool_decide (a = backslash) || bool_decide (a = "010"%char)
              || bool_decide (a = "013"%char) then None
      else '(t, r) ← read_quoted q s'; Some (String a t, r)
  end.

Definition parse_atom (s : string) : option (pyval * string) :=
  match s with
  | String "N" (String "o" (String "n" (String "e" r))) => Some (PNone, r)
  | String "T" (String "r" (String "u" (String "e" r))) => Some (PBool true, r)
  | String "F" (String "a" (String "l" (String "s" (String "e" r)))) =>
      Some (PBool false, r)
  | String "-" s' =>
      let '(ds, r) := span_digits s' in
      z ← int_of_digits ds; Some (PInt (- z), r)
  | _ =>
      let '(ds, r) := span_digits s in
      z ← int_of_digits ds; Some (PInt z, r)
  end.

Fixpoint parse_value (fuel : nat) (s : string) : option (pyval * string) :=
  match fuel with
  | O => None
  | S fuel' =>
      match skip_blanks s with
      | "" => None
      | String "[" s' => parse_items fuel' (skip_blanks s') []
      | String a s' =>
          if bool_decide (a = squote) || bool_decide (a = dquote)
          then '(t, r) ← read_quoted a s'; Some (PStr t, r)
          else parse_atom (String a s')
      end
  end
with parse_items (fuel : nat) (s : string) (acc : list pyval)
  : option (pyval * string) :=
  match fuel with
  | O => None
  | S fuel' =>
      match s with
      | String "]" s' => Some (PList (reverse acc), s')
      | _ =>
          '(v, r) ← parse_value fuel' s;
          match skip_blanks r with
          | String "," r' => parse_items fuel' (skip_blanks r') (v :: acc)
          | String "]" r' => Some (PList (reverse (v :: acc)), r')
          | _ => None
          end
      end
  end.

(** The whole text must be one literal: what follows it may only be blank
    (so [5x] and [Nonesuch] are refused). *)
Definition literal_eval (s : string) : option pyval :=
  '(v, r) ← parse_value (2 * String.length s + 2) s;
  match skip_blanks r with
  | "" => Some v
  | _ => None
  end.

End LiteralEval.

(** ** Exceptions and the error monad of [main] *)

Inductive exn :=
| KeyError (k : string)
| TypeError
| ValueError
| NonStringToken.

Inductive result (A : Type) :=
| Ok (a : A)
| Raise (e : exn).
Arguments Ok {A} a.
Arguments Raise {A} e.

Global Instance result_ret : MRet result := fun A a => Ok a.
Global Instance result_bind : MBind result := fun A B f m =>
  match m with
  | Ok a => f a
  | Raise e => Raise e
  end.
Global Instance result_fmap : FMap result := fun A B f m =>
  match m with
  | Ok a => Ok (f a)
  | Raise e => Raise e
  end.

(** ** Tables and their columns *)

Record DataFrame := {
  columns : list string;
  rows : list (list cell)
}.

(** [row.get(c, default)]: the cell of [row] under the column named [c]. *)
Fixpoint row_get (cols : list string) (row : list cell) (c : string)
    (default : cell) : cell :=
  match cols, row with
  | k :: cols', v :: row' =>
      if bool_decide (k = c) then v else row_get cols' row' c default
  | _, _ => default
  end.

(** [df[c]]: raises [KeyError] when there is no such column. *)
Definition column (df : DataFrame) (c : string) : result (list cell) :=
  if bool_decide (c ∈ columns df)
  then Ok (map (fun row => row_get (columns df) row c CNaN) (rows df))
  else Raise (KeyError c).

(** The loop of [get_labels]: [out] is the list being appended to. The row
    is the one [apply] hands over for a table with at least one column that
    is not boolean, where a boolean cell is Python's [True] or [False]. On
    an all-boolean table the cells are numpy booleans, for which
    [v is True] is false; that table is not followed here. *)
Definition get_labels (cols_all : list string) (row : list cell)
    (cols : list string) (prefix : string) : list string :=
  fold_left
    (fun out c =>
       match row_get cols_all row c (CBool false) with
       | CBool true =>
           out ++ [PyStr.lower (PyStr.strip
                     (PyStr.replace ".raw" "" (PyStr.replace prefix "" c)))]
       | _ => out
       end)
    cols [].

(** [sorted(...)] on strings. *)
Definition sorted (l : list string) : list string := merge_sort String.le l.

Definition map_manual_emotions (lst : list string) : list string :=
  sorted (elements (py_set (map (fun x => dict_get EMOTION_MAP x x) lst))).

(** The separator of [.str.split], an en dash (U+2013) in UTF-8. *)
Definition en_dash : string :=
  String "226"%char (String "128"%char (String "147"%char "")).

(** [.str[-1]] on the pieces of a split. *)
Definition last_piece (l : list string) : string := List.last l "".

Definition classifier_emotion (raw : cell) : string :=
  normalize_emotion_label
    (Some (PyStr.strip (last_piece (PyStr.split en_dash (astype_str raw))))).

Definition classifier_domain (raw : cell) : string :=
  canonical_domain (Some (PyStr.strip (PyStr.lower (astype_str raw)))).

(** Iterating over a list-valued cell whose elements are then used as label
    strings: a list of strings gives its elements, a string gives its
    characters, a scalar is not iterable. [map_manual_emotions] is annotated
    [List[str]]; a list holding anything but strings is not followed further
    ([NonStringToken] is no Python exception). *)
Fixpoint strs_of (l : list pyval) : option (list string) :=
  match l with
  | [] => Some []
  | PStr s :: l' => cons s <$> strs_of l'
  | _ :: _ => None
  end.

Fixpoint chars_of (s : string) : list string :=
  match s with
  | "" => []
  | String a s' => String a "" :: chars_of s'
  end.

Definition tokens (v : pyval) : result (list string) :=
  match v with
  | PList l =>
      match strs_of l with
      | Some ss => Ok ss
      | None => Raise NonStringToken
      end
  | PStr s => Ok (chars_of s)
  | PNone | PBool _ | PInt _ | PNaN => Raise TypeError
  end.

(** ** The confusion tables *)

(** The nested loops that fill [emo_pairs] and [dom_pairs]: [acc] is the
    list the loop appends to. *)
Definition pairs_loop (manual : Row -> list string) (pred : Row -> string)
    (mm : list Row) : list (string * string) :=
  fold_left
    (fun acc row =>
       let pred := pred row in
       fold_left (fun acc m => acc ++ [(m, pred)]) (manual row) acc)
    mm [].

Definition emo_pairs (df : list Row) : list (string * string) :=
  let mm_e := filter (fun row => bucket_emotion row = 3%Z) df in
  pairs_loop manual_emotions_coarse classifier_emotion_norm mm_e.

Definition dom_pairs (df : list Row) : list (string * string) :=
  let mm_d := filter (fun row => bucket_domain row = 3%Z) df in
  pairs_loop manual_domains_canon classifier_domain_norm mm_d.

(** [pd.crosstab(manual, predicted)]: row labels, column labels and the
    counts, one list per row label. *)
Record Crosstab := {
  index : list string;
  labels : list string;
  counts : list (list nat)
}.

Definition crosstab (pairs : list (string * string)) : Crosstab :=
  let idx := sorted (elements (py_set (pairs.*1))) in
  let cols := sorted (elements (py_set (pairs.*2))) in
  {| index := idx;
     labels := cols;
     counts := map (fun i => map (fun j =>
                 length (filter (fun p => p = (i, j)) pairs)) cols) idx |}.

(** ** [ensure_list] and [main] *)

Record Output := {
  manual_emotions : list pyval;
  manual_domains : list pyval;
  derived : list Row;
  bucket_emotion_col : list Z;
  bucket_domain_col : list Z;
  emo_cm : Crosstab;
  dom_cm : Crosstab
}.

Section Main.

(** [ast.literal_eval]; [None] when it raises. *)
Variable literal_eval : string -> option pyval.

Definition ensure_list (x : pyval) : pyval :=
  match x with
  | PList _ => x
  | PStr s =>
      match literal_eval s with
      | Some v => v
      | None => PList []
      end
  | _ => PList []
  end.

(** Lines 94-108: the two manual-label columns, one value per row. *)
Definition manual_labels (df : DataFrame) : list pyval * list pyval :=
  if negb (bool_decide ("manual_emotions" ∈ columns df))
     || negb (bool_decide ("manual_domains" ∈ columns df))
  then
    let emo_cols := filter (fun c => PyStr.startswith "Answer.f1." c = true) (columns df) in
    let dom_cols := filter (fun c => PyStr.startswith "Answer.t1." c = true) (columns df) in
    (map (fun r => PList (PStr <$> get_labels (columns df) r emo_cols "Answer.f1.")) (rows df),
     map (fun r => PList (PStr <$> get_labels (columns df) r dom_cols "Answer.t1.")) (rows df))
  else
    (map (fun r => ensure_list (of_cell (row_get (columns df) r "manual_emotions" CNaN))) (rows df),
     map (fun r => ensure_list (of_cell (row_get (columns df) r "manual_domains" CNaN))) (rows df)).

Definition zip_rows (coarse : list (list string)) (emo : list string)
    (canon : list (list string)) (dom : list string) : list Row :=
  zip_with (fun '(c, e) '(k, d) =>
              {| manual_emotions_coarse := c; classifier_emotion_norm := e;
                 manual_domains_canon := k; classifier_domain_norm := d |})
           (zip coarse emo) (zip canon dom).

(** [main] up to the confusion tables, in the order of the script: coarse
    manual emotions, the two classifier columns, canonical manual domains,
    buckets, pair lists and cross-tabulations. Reading and writing the CSV
    files is left out. On a table without rows [df.apply(bucket_emotion,
    axis=1)] gives back a frame, and assigning it to the one column
    [bucket_emotion] raises ValueError. *)
Definition main (df : DataFrame) : result Output :=
  let '(m_emo, m_dom) := manual_labels df in
  coarse ← mapM (fun v => map_manual_emotions <$> tokens v) m_emo;
  emo_raw ← column df "EmotionPro";
  dom_raw ← column df "DomainPro";
  canon ← mapM (fun v => map (fun x => canonical_domain (Some x)) <$> tokens v) m_dom;
  let df' := zip_rows coarse (map classifier_emotion emo_raw)
                      canon (map classifier_domain dom_raw) in
  if bool_decide (rows df = []) then Raise ValueError
  else
    Ok {| manual_emotions := m_emo;
          manual_domains := m_dom;
          derived := df';
          bucket_emotion_col := map bucket_emotion df';
          bucket_domain_col := map bucket_domain df';
          emo_cm := crosstab (emo_pairs df');
          dom_cm := crosstab (dom_pairs df') |}.

End Main.

(** ** The normalisers over Python's own [str.lower] and [str.strip]

    [PyStr.lower] and [PyStr.strip] above are the two methods on ASCII text.
    On other text Python lower-cases by the Unicode tables and strips the
    Unicode white space, which are not embedded here: the definitions below
    take the two methods as parameters, and [py_str_methods] lists what is
    used of them. A string is the UTF-8 encoding of the Python string. *)

(** Every byte is below 128. *)
Fixpoint is_ascii (s : string) : bool :=
  match s with
  | "" => true
  | String a s' => (nat_of_ascii a <? 128)%nat && is_ascii s'
  end.

Record py_str_methods (lower strip : string -> string) : Prop := {
  lower_on_ascii : forall s, is_ascii s = true -> lower s = PyStr.lower s;
  strip_on_ascii : forall s, is_ascii s = true -> strip s = PyStr.strip s;
  lower_lower : forall s, lower (lower s) = lower s;
  strip_strip : forall s, strip (strip s) = strip s;
  strip_lower_commute : forall s, strip (lower s) = lower (strip s);
  lower_no_capital : forall s a,
    PyStr.is_upper a = true -> PyStr.contains (String a "") (lower s) = false;
  lower_nonempty : forall s, lower s = "" -> s = ""
}.

Module Generic.
Section Methods.
Variables (lower strip : string -> string).

Definition normalize_emotion_label (e : option string) : string :=
  match e with
  | None => ""
  | Some s =>
      match first_name_in EMOTION_NAMES s with
      | Some r => r
      | None => lower (strip s)
      end
  end.

Definition canonical_domain (s : option string) : string :=
  match s with
  | None => ""
  | Some s =>
      let s := lower (strip s) in
      dict_get DOMAIN_ALIAS s s
  end.

Definition is_domain_adjacent (a b : string) : bool :=
  if negb (PyStr.truthy a) || negb (PyStr.truthy b) then false
  else
    let x := lower a in
    let y := lower b in
    bool_decide (x = y) || bool_decide ((x, y) ∈ DOMAIN_ADJ)
    || bool_decide ((y, x) ∈ DOMAIN_ADJ).

(** Line 117: the classifier domain of a cell. *)
Definition classifier_domain (raw : cell) : string :=
  canonical_domain (Some (strip (lower (astype_str raw)))).

End Methods.
End Generic.

(** ** The bucketing rules as the specification words them *)

(** [b] is in the stored adjacency set of [a]. *)
Definition in_adj_set_of (a b : string) : Prop :=
  exists s, EMOTION_ADJ !! a = Some s /\ b ∈ s.

(** "A adjacent-to B if B is in A's set OR A is in B's set". *)
Definition emotion_adjacent (a b : string) : Prop :=
  in_adj_set_of a b \/ in_adj_set_of b a.

Global Instance in_adj_set_of_dec a b : Decision (in_adj_set_of a b).
Proof.
  unfold in_adj_set_of.
  destruct (EMOTION_ADJ !! a) as [s|] eqn:E.
  - destruct (decide (b ∈ s)) as [Hin|Hout].
    + left. eauto.
    + right. intros (s' & Hs' & Hb). congruence.
  - right. intros (s' & Hs' & _). discriminate.
Defined.

Global Instance emotion_adjacent_dec a b : Decision (emotion_adjacent a b).
Proof. unfold emotion_adjacent. apply _. Defined.

(** The five emotion rules, first match wins. *)
Definition emotion_bucket_rules (mset : gset string) (c : string) : Z :=
  if decide (mset = ∅ /\ c = "") then 2
  else if decide (c ∈ mset) then 1
  else if decide (c = "mixed" /\ 1 < size mset) then 2
  else if decide (set_Exists (emotion_adjacent c) mset) then 2
  else 3.

(** A row of which only the emotion columns matter, and one of which only
    the domain columns matter. *)
Definition emotion_row (manual : list string) (c : string) : Row :=
  {| manual_emotions_coarse := manual; classifier_emotion_norm := c;
     manual_domains_canon := []; classifier_domain_norm := "" |}.

Definition domain_row (manual : list string) (c : string) : Row :=
  {| manual_emotions_coarse := []; classifier_emotion_norm := "";
     manual_domains_canon := manual; classifier_domain_norm := c |}.

(** One pair per manual label of [row], each with the row's predicted
    value. *)
Definition emitted (manual : Row -> list string) (pred : Row -> string)
    (row : Row) : list (string * string) :=
  map (fun m => (m, pred row)) (manual row).

(** The tables of the scenarios: one record read from the boolean annotation
    columns, and one in a table with no manual-label column of either kind. *)
Definition angry_disgusted_table : DataFrame :=
  {| columns := ["Answer.f1.angry.raw"; "EmotionPro"; "DomainPro"];
     rows := [[CBool true; CStr "Disgusted"; CStr "work"]] |}.

Definition unlabelled_table : DataFrame :=
  {| columns := ["EmotionPro"; "DomainPro"];
     rows := [[CStr ("3 " +:+ en_dash +:+ " Joy"); CStr "work"]] |}.

Definition no_labels (df : DataFrame) : list pyval :=
  map (fun _ => PList []) (rows df).

(** A table whose [manual_emotions] cells are the text of a list, of a
    number and of a quoted word. *)
Definition manual_cell_table (cell_text : string) : DataFrame :=
  {| columns := ["manual_emotions"; "manual_domains"; "EmotionPro"; "DomainPro"];
     rows := [[CStr cell_text; CStr "['work']"; CStr "Joy"; CStr "work"]] |}.

(** ** The rest of [main]: bucket counts, output paths and the summary *)

(** [s.value_counts()] as the dict [fmt_count] makes of it: how often each
    value occurs in the column; a value that does not occur has no key. *)
Definition value_counts (col : list Z) : gmap Z nat :=
  foldr (fun b m => <[ b := S (default 0 (m !! b)) ]> m) ∅ col.

(** The parsed command line: [input] is required, the three others are
    [None] when the option is not given. *)
Record Args := {
  input : string;
  output : option string;
  emotion_cm : option string;
  domain_cm : option string
}.

(** [x or d]: [None] and the empty string are falsy. *)
Definition py_or (x : option string) (d : string) : string :=
  match x with
  | Some s => if PyStr.truthy s then s else d
  | None => d
  end.

Definition out_aug (args : Args) : string :=
  py_or (output args) (PyStr.replace ".csv" "_with_buckets.csv" (input args)).

Definition out_emo (args : Args) : string :=
  py_or (emotion_cm args) (PyStr.replace ".csv" "_emotion_cm.csv" (input args)).

Definition out_dom (args : Args) : string :=
  py_or (domain_cm args) (PyStr.replace ".csv" "_domain_cm.csv" (input args)).

(** The printed summary. *)
Record Summary := {
  emotion_buckets : gmap Z nat;
  domain_buckets : gmap Z nat;
  augmented_csv : string;
  emotion_confusion_csv : string;
  domain_confusion_csv : string
}.

Definition summary (args : Args) (out : Output) : Summary :=
  {| emotion_buckets := value_counts (bucket_emotion_col out);
     domain_buckets := value_counts (bucket_domain_col out);
     augmented_csv := out_aug args;
     emotion_confusion_csv := out_emo args;
     domain_confusion_csv := out_dom args |}.




(** Options not given on the command line. *)
Definition default_args (path : string) : Args :=
  {| input := path; output := None; emotion_cm := None; domain_cm := None |}.

(** The eight coarse emotion names, lower-cased. *)
Definition COARSE : list string := map PyStr.lower EMOTION_NAMES.

(** Closed decidable goals, such as membership in a literal list. *)
Ltac decide_by_computation :=
  first [ eapply bool_decide_eq_true_1; vm_compute; reflexivity
        | eapply bool_decide_eq_false_1; vm_compute; reflexivity ].

(** * Properties *)

(** ** Small facts about the embedded operations *)

Lemma truthy_false s : PyStr.truthy s = false <-> s = "".
Proof. destruct s; simpl; split; congruence. Qed.

Lemma truthy_true s : PyStr.truthy s = true <-> s <> "".
Proof. destruct s; simpl; split; congruence. Qed.

Lemma adj_lists_spec k v : adj_lists k v = true <-> in_adj_set_of k v.
Proof.
  unfold adj_lists, in_adj_set_of.
  destruct (EMOTION_ADJ !! k) as [s|].
  - rewrite bool_decide_eq_true. split.
    + intros Hv. exists s. auto.
    + intros (s' & Hs' & Hv). congruence.
  - split; [discriminate|]. intros (s' & Hs' & _). discriminate.
Qed.

Lemma adjacency_test_spec (mset : gset string) c :
  existsb (adjacency_test c) (elements mset) = true
  <-> set_Exists (emotion_adjacent c) mset.
Proof.
  rewrite existsb_exists. unfold set_Exists, emotion_adjacent, adjacency_test. split.
  - intros (mm & Hin & Hadj). exists mm.
    apply list_elem_of_In, elem_of_elements in Hin.
    apply orb_true_iff in Hadj. rewrite !adj_lists_spec in Hadj. auto.
  - intros (mm & Hin & Hadj). exists mm. split.
    + apply list_elem_of_In, elem_of_elements, Hin.
    + apply orb_true_iff. rewrite !adj_lists_spec. exact Hadj.
Qed.

Lemma contains_slash_nonempty c : PyStr.contains "/" c = true -> c <> "".
Proof. intros H ->. discriminate H. Qed.

(** ** Emotion bucketing *)

(** C1: for every record [bucket_emotion] is the bucket the five rules of the
    specification give, taken in order: empty manual set and empty classifier
    value gives 2; else membership gives 1; else "mixed" against more than
    one manual label gives 2; else bidirectional adjacency to some manual
    label gives 2; else 3. *)
Theorem bucket_emotion_follows_rules (row : Row) :
  bucket_emotion row
  = emotion_bucket_rules (py_set (manual_emotions_coarse row))
                         (classifier_emotion_norm row).
Proof.
  unfold bucket_emotion, emotion_bucket_rules.
  set (mset := py_set (manual_emotions_coarse row)).
  set (c := classifier_emotion_norm row).
  destruct (decide (mset = ∅ /\ c = "")) as [[Hm Hc]|Hne].
  { rewrite (bool_decide_eq_true_2 _ Hm).
    apply truthy_false in Hc. rewrite Hc. reflexivity. }
  assert (bool_decide (mset = ∅) && negb (PyStr.truthy c) = false) as ->.
  { apply andb_false_iff.
    destruct (decide (mset = ∅)) as [Hm|Hm].
    - right. apply negb_false_iff, truthy_true. intros Hc. apply Hne. auto.
    - left. apply bool_decide_eq_false_2, Hm. }
  destruct (decide (c ∈ mset)) as [Hin|Hout].
  { rewrite (bool_decide_eq_true_2 _ Hin). reflexivity. }
  rewrite (bool_decide_eq_false_2 _ Hout).
  destruct (decide (c = "mixed" /\ 1 < size mset)) as [[Hmx Hsz]|Hnm].
  { rewrite (bool_decide_eq_true_2 _ Hmx), (bool_decide_eq_true_2 _ Hsz).
    reflexivity. }
  assert (bool_decide (c = "mixed") && bool_decide (1 < size mset) = false) as ->.
  { apply andb_false_iff.
    destruct (decide (c = "mixed")) as [Hmx|Hmx].
    - right. apply bool_decide_eq_false_2. intros Hsz. apply Hnm. auto.
    - left. apply bool_decide_eq_false_2, Hmx. }
  destruct (decide (set_Exists (emotion_adjacent c) mset)) as [Hadj|Hnadj].
  - apply adjacency_test_spec in Hadj. rewrite Hadj. reflexivity.
  - destruct (existsb _ (elements mset)) eqn:E; [|reflexivity].
    apply adjacency_test_spec in E. contradiction.
Qed.

Lemma bucket_emotion_singleton_adjacent (row : Row) (m c : string) :
  py_set (manual_emotions_coarse row) = {[ m ]} ->
  classifier_emotion_norm row = c ->
  c <> m ->
  emotion_adjacent c m ->
  bucket_emotion row = 2%Z.
Proof.
  intros Hset Hc Hne Hadj.
  unfold bucket_emotion. rewrite Hset, Hc.
  rewrite (bool_decide_eq_false_2 (_ = ∅)) by apply non_empty_singleton_L.
  rewrite (bool_decide_eq_false_2 (c ∈ _)) by (rewrite elem_of_singleton; exact Hne).
  rewrite size_singleton.
  rewrite (bool_decide_eq_false_2 (1 < 1)) by lia.
  rewrite andb_false_r. simpl.
  assert (existsb (adjacency_test c)
            (elements ({[ m ]} : gset string)) = true) as ->; [|reflexivity].
  apply adjacency_test_spec. exists m. split; [set_solver|exact Hadj].
Qed.

(** C5: adjacency is symmetric in effect. If [A] is in the stored adjacency
    set of [B] and the two differ, then a record with coarse manual set {B}
    and classifier emotion [A] gets bucket 2, and so does a record with
    coarse manual set {A} and classifier emotion [B]. *)
Theorem adjacency_symmetric_in_effect (A B : string) (rBA rAB : Row) :
  A <> B ->
  in_adj_set_of B A ->
  py_set (manual_emotions_coarse rBA) = {[ B ]} ->
  classifier_emotion_norm rBA = A ->
  py_set (manual_emotions_coarse rAB) = {[ A ]} ->
  classifier_emotion_norm rAB = B ->
  bucket_emotion rBA = 2%Z /\ bucket_emotion rAB = 2%Z.
Proof.
  intros Hne Hstored HsB HcA HsA HcB. split.
  - apply (bucket_emotion_singleton_adjacent rBA B A); auto.
    right. exact Hstored.
  - apply (bucket_emotion_singleton_adjacent rAB A B); auto.
    left. exact Hstored.
Qed.

Lemma adjacency_symmetric_in_effect_witness :
  bucket_emotion (emotion_row ["joy"] "neutral") = 2%Z
  /\ bucket_emotion (emotion_row ["neutral"] "joy") = 2%Z.
Proof.
  apply (adjacency_symmetric_in_effect "neutral" "joy").
  - discriminate.
  - exists {[ "neutral" ]}. split; [reflexivity | set_solver].
  - vm_compute. reflexivity.
  - reflexivity.
  - vm_compute. reflexivity.
  - reflexivity.
Defined.

(** ** The adjacency table around "surprise" *)

Lemma surprise_stored_empty : EMOTION_ADJ !! "surprise" = Some ∅.
Proof. reflexivity. Qed.

Lemma surprise_listed_only_by_mixed :
  map_Forall (fun k s => k = "mixed" \/ "surprise" ∉ s) EMOTION_ADJ.
Proof. eapply bool_decide_eq_true_1. vm_compute. reflexivity. Qed.

Lemma surprise_not_adjacent (c : string) :
  c <> "mixed" -> adjacency_test c "surprise" = false.
Proof.
  intros Hmx. unfold adjacency_test. apply orb_false_iff. split.
  - unfold adj_lists. destruct (EMOTION_ADJ !! c) as [s|] eqn:E; [|reflexivity].
    apply bool_decide_eq_false_2.
    destruct (surprise_listed_only_by_mixed c s E) as [Hk|Hs]; [contradiction|exact Hs].
  - unfold adj_lists. rewrite surprise_stored_empty.
    apply bool_decide_eq_false_2, not_elem_of_empty.
Qed.

(** C6, as stated, fails: "mixed" differs from "surprise", lists it in its
    stored set, and so passes the bidirectional test; the record gets
    bucket 2 by the adjacency rule. *)
Lemma surprise_adjacent_to_mixed :
  ~ (forall c, c <> "surprise" ->
       adjacency_test c "surprise" = false
       /\ bucket_emotion (emotion_row ["surprise"] c) <> 2%Z).
Proof.
  intros H. destruct (H "mixed") as [Htest _]; [discriminate|].
  vm_compute in Htest. discriminate Htest.
Qed.

(** C6, amended: the stored set of "surprise" is empty and only "mixed"
    lists "surprise". For every [c] other than "surprise" and "mixed" the
    bidirectional test against "surprise" is false and a record with coarse
    manual set {"surprise"} and classifier emotion [c] gets bucket 3; with
    "mixed" the test is true and the bucket is 2. *)
Theorem surprise_adjacent_only_to_mixed :
  EMOTION_ADJ !! "surprise" = Some ∅
  /\ (forall (c : string) (row : Row),
        c <> "surprise" -> c <> "mixed" ->
        py_set (manual_emotions_coarse row) = {[ "surprise" ]} ->
        classifier_emotion_norm row = c ->
        adjacency_test c "surprise" = false /\ bucket_emotion row = 3%Z)
  /\ adjacency_test "mixed" "surprise" = true
  /\ bucket_emotion (emotion_row ["surprise"] "mixed") = 2%Z.
Proof.
  split; [reflexivity|]. split; [|split; vm_compute; reflexivity].
  intros c row Hs Hmx Hset Hc.
  pose proof (surprise_not_adjacent c Hmx) as Htest.
  split; [exact Htest|].
  unfold bucket_emotion. rewrite Hset, Hc.
  rewrite (bool_decide_eq_false_2 (_ = ∅)) by apply non_empty_singleton_L.
  rewrite (bool_decide_eq_false_2 (c ∈ _)) by (rewrite elem_of_singleton; exact Hs).
  rewrite (bool_decide_eq_false_2 (c = "mixed")) by exact Hmx.
  rewrite elements_singleton. simpl.
  rewrite Htest. reflexivity.
Qed.

Lemma surprise_adjacent_only_to_mixed_witness :
  adjacency_test "joy" "surprise" = false
  /\ bucket_emotion (emotion_row ["surprise"] "joy") = 3%Z.
Proof.
  destruct surprise_adjacent_only_to_mixed as (_ & H & _).
  apply (H "joy" (emotion_row ["surprise"] "joy")).
  - discriminate.
  - discriminate.
  - vm_compute. reflexivity.
  - reflexivity.
Defined.

(** ** Domain bucketing *)

(** C7: when the filtered manual-domain set does not contain the classifier
    domain [c], but [c] contains "/" and one of its "/"-separated parts is in
    the set, the domain bucket is 1. *)
Theorem bucket_domain_compound_match (row : Row) :
  let mset := py_set (filter (fun x => PyStr.truthy x = true) (manual_domains_canon row)) in
  let c := classifier_domain_norm row in
  c ∉ mset ->
  PyStr.contains "/" c = true ->
  (exists p, p ∈ PyStr.split "/" c /\ p ∈ mset) ->
  bucket_domain row = 1%Z.
Proof.
  intros mset c Hout Hslash (p & Hpart & Hp).
  unfold bucket_domain. fold mset. fold c.
  assert (PyStr.truthy c = true) as Hc
    by (apply truthy_true, contains_slash_nonempty, Hslash).
  rewrite Hc, andb_false_r.
  rewrite (bool_decide_eq_false_2 _ Hout).
  rewrite Hslash. simpl.
  assert (existsb (fun p => bool_decide (p ∈ mset)) (PyStr.split "/" c) = true) as ->;
    [|reflexivity].
  apply existsb_exists. exists p. split.
  - apply list_elem_of_In, Hpart.
  - apply bool_decide_eq_true_2, Hp.
Qed.

Lemma bucket_domain_compound_match_witness :
  bucket_domain (domain_row ["work"] "work/career") = 1%Z.
Proof.
  apply (bucket_domain_compound_match (domain_row ["work"] "work/career")).
  - decide_by_computation.
  - reflexivity.
  - exists "work". split; decide_by_computation.
Defined.

(** C10: the emotion bucket keeps empty strings in the manual set, the
    domain bucket filters them out. With the empty string among the coarse
    manual emotions and an empty classifier emotion the emotion bucket is 1;
    with nothing but empty strings among the canonical manual domains and an
    empty classifier domain the domain bucket is 2. *)
Theorem empty_string_kept_for_emotion_dropped_for_domain (r1 r2 : Row) :
  "" ∈ manual_emotions_coarse r1 ->
  classifier_emotion_norm r1 = "" ->
  Forall (fun x => x = "") (manual_domains_canon r2) ->
  classifier_domain_norm r2 = "" ->
  bucket_emotion r1 = 1%Z /\ bucket_domain r2 = 2%Z.
Proof.
  intros Hin Hc1 Hall Hc2. split.
  - unfold bucket_emotion. rewrite Hc1.
    assert ("" ∈ py_set (manual_emotions_coarse r1)) as Hmem.
    { unfold py_set. apply elem_of_list_to_set, Hin. }
    rewrite (bool_decide_eq_false_2 (_ = ∅)) by set_solver.
    rewrite (bool_decide_eq_true_2 _ Hmem). reflexivity.
  - unfold bucket_domain. rewrite Hc2.
    assert (filter (fun x => PyStr.truthy x = true) (manual_domains_canon r2) = []) as ->.
    { induction Hall as [|x l Hx Hl IH]; [reflexivity|].
      subst x. rewrite filter_cons_False; [exact IH|]. simpl. discriminate. }
    reflexivity.
Qed.

Lemma empty_string_kept_for_emotion_dropped_for_domain_witness :
  bucket_emotion (emotion_row [""] "") = 1%Z
  /\ bucket_domain (domain_row [""] "") = 2%Z.
Proof.
  apply empty_string_kept_for_emotion_dropped_for_domain.
  - simpl. left.
  - reflexivity.
  - simpl. repeat constructor.
  - reflexivity.
Defined.

(** ** Domain canonicalisation *)

Section StrNormalise.
Import PyStr.

Lemma lower_char_idem a : lower_char (lower_char a) = lower_char a.
Proof. destruct a as [[] [] [] [] [] [] [] []]; reflexivity. Qed.

Lemma is_space_lower_char a : is_space (lower_char a) = is_space a.
Proof. destruct a as [[] [] [] [] [] [] [] []]; reflexivity. Qed.

Lemma lower_idem s : lower (lower s) = lower s.
Proof.
  induction s as [|a s IH]; simpl; [reflexivity|].
  rewrite lower_char_idem, IH. reflexivity.
Qed.

Lemma lstrip_lower s : lstrip (lower s) = lower (lstrip s).
Proof.
  induction s as [|a s IH]; simpl; [reflexivity|].
  rewrite is_space_lower_char. destruct (is_space a); [exact IH|reflexivity].
Qed.

Lemma rstrip_lower s : rstrip (lower s) = lower (rstrip s).
Proof.
  induction s as [|a s IH]; simpl; [reflexivity|].
  rewrite IH, is_space_lower_char.
  destruct (rstrip s) as [|b r]; simpl.
  - destruct (is_space a); reflexivity.
  - reflexivity.
Qed.

Lemma strip_lower s : strip (lower s) = lower (strip s).
Proof. unfold strip. rewrite lstrip_lower, rstrip_lower. reflexivity. Qed.

Lemma rstrip_idem s : rstrip (rstrip s) = rstrip s.
Proof.
  induction s as [|a s IH]; simpl; [reflexivity|].
  destruct (rstrip s) as [|b r] eqn:E.
  - destruct (is_space a) eqn:Ea; simpl; [reflexivity|]. rewrite Ea. reflexivity.
  - simpl in IH. simpl. rewrite IH. reflexivity.
Qed.

(** Stripping on the right leaves a leading non-blank character alone. *)
Lemma lstrip_rstrip_lstrip s : lstrip (rstrip (lstrip s)) = rstrip (lstrip s).
Proof.
  induction s as [|a s IH]; simpl; [reflexivity|].
  destruct (is_space a) eqn:Ea; [exact IH|].
  simpl. destruct (rstrip s) as [|b r]; rewrite ?Ea; simpl; rewrite Ea; reflexivity.
Qed.

Lemma strip_idem s : strip (strip s) = strip s.
Proof.
  unfold strip. rewrite lstrip_rstrip_lstrip. apply rstrip_idem.
Qed.

Lemma lower_strip_idem s : lower (strip (lower (strip s))) = lower (strip s).
Proof. rewrite strip_lower, strip_idem. apply lower_idem. Qed.

Lemma lower_char_upper_moves a : is_upper a = true -> lower_char a <> a.
Proof. destruct a as [[] [] [] [] [] [] [] []]; intros H; try discriminate H; discriminate. Qed.

Lemma contains_capital_in_lower (a : ascii) (k t : string) :
  is_upper a = true -> lower t = t -> contains (String a k) t = false.
Proof.
  intros Ha. induction t as [|b t IH]; intros Ht; [reflexivity|].
  simpl in Ht. injection Ht as Hb Ht'.
  cbn [contains startswith]. rewrite (IH Ht'), orb_false_r.
  destruct (decide (a = b)) as [->|]; [|reflexivity].
  destruct (lower_char_upper_moves b Ha Hb).
Qed.

End StrNormalise.

(** The two ASCII methods have the properties asked of Python's. *)
Lemma ascii_methods : py_str_methods PyStr.lower PyStr.strip.
Proof.
  split.
  - reflexivity.
  - reflexivity.
  - apply lower_idem.
  - apply strip_idem.
  - apply strip_lower.
  - intros s a Ha. apply contains_capital_in_lower; [exact Ha|apply lower_idem].
  - intros [|a s] H; [reflexivity|discriminate H].
Qed.

Section Methods.
Context (lower strip : string -> string) (L : py_str_methods lower strip).

Lemma methods_norm_idem s : lower (strip (lower (strip s))) = lower (strip s).
Proof.
  rewrite (strip_lower_commute _ _ L), (strip_strip _ _ L).
  apply (lower_lower _ _ L).
Qed.

Lemma methods_norm_stripped s : strip (lower (strip s)) = lower (strip s).
Proof. rewrite (strip_lower_commute _ _ L), (strip_strip _ _ L). reflexivity. Qed.

Lemma methods_norm_ascii s :
  is_ascii s = true -> is_ascii (PyStr.strip s) = true ->
  lower (strip s) = PyStr.lower (PyStr.strip s).
Proof.
  intros Hs Hs'. rewrite (strip_on_ascii _ _ L s Hs).
  apply (lower_on_ascii _ _ L), Hs'.
Qed.

Lemma methods_lower_empty : lower "" = "".
Proof. apply (lower_on_ascii _ _ L ""). reflexivity. Qed.

Lemma methods_strip_empty : strip "" = "".
Proof. apply (strip_on_ascii _ _ L ""). reflexivity. Qed.

Lemma methods_truthy_lower s : PyStr.truthy (lower s) = PyStr.truthy s.
Proof.
  destruct s as [|a s]; [rewrite methods_lower_empty; reflexivity|].
  destruct (lower (String a s)) eqn:E; [|reflexivity].
  apply (lower_nonempty _ _ L) in E. discriminate E.
Qed.

End Methods.

Lemma alias_values_ascii :
  map_Forall (fun _ v => is_ascii v = true /\ is_ascii (PyStr.strip v) = true
                         /\ PyStr.lower (PyStr.strip v) = v
                         /\ PyStr.lower v = v /\ PyStr.strip v = v
                         /\ DOMAIN_ALIAS !! v = Some v) DOMAIN_ALIAS.
Proof. eapply bool_decide_eq_true_1. vm_compute. reflexivity. Qed.

Lemma generic_canonical_domain_value (lower strip : string -> string) (k v : string) :
  py_str_methods lower strip ->
  DOMAIN_ALIAS !! k = Some v -> Generic.canonical_domain lower strip (Some v) = v.
Proof.
  intros L Hk. destruct (alias_values_ascii k v Hk) as (Ha & Has & Hn & _ & _ & Hv).
  unfold Generic.canonical_domain, dict_get.
  rewrite (methods_norm_ascii lower strip L v Ha Has), Hn, Hv. reflexivity.
Qed.

Lemma alias_values_canonical :
  map_Forall (fun _ v => canonical_domain (Some v) = v) DOMAIN_ALIAS.
Proof. eapply bool_decide_eq_true_1. vm_compute. reflexivity. Qed.

(** C4: [canonical_domain] is idempotent: for every string x (and for
    [None]) canonicalising the result again gives the same result, and every
    canonical value of the alias table maps to itself. This is proved for
    [strip] and [lower] taken as Python's methods, of which it uses that
    they are the ASCII methods on ASCII text, that each is idempotent and
    that they commute. *)
Theorem canonical_domain_idempotent (lower strip : string -> string) :
  py_str_methods lower strip ->
  (forall x : option string,
     Generic.canonical_domain lower strip
       (Some (Generic.canonical_domain lower strip x))
     = Generic.canonical_domain lower strip x)
  /\ map_Forall (fun _ v => Generic.canonical_domain lower strip (Some v) = v)
                DOMAIN_ALIAS.
Proof.
  intros L. split.
  2:{ intros k v Hk. exact (generic_canonical_domain_value lower strip k v L Hk). }
  intros [x|].
  - assert (Generic.canonical_domain lower strip (Some x)
            = dict_get DOMAIN_ALIAS (lower (strip x)) (lower (strip x))) as ->
      by reflexivity.
    unfold dict_get at 1 2.
    destruct (DOMAIN_ALIAS !! lower (strip x)) as [v|] eqn:E.
    + exact (generic_canonical_domain_value lower strip _ v L E).
    + unfold Generic.canonical_domain, dict_get.
      rewrite (methods_norm_idem lower strip L), E. reflexivity.
  - unfold Generic.canonical_domain, dict_get.
    rewrite (methods_strip_empty lower strip L), (methods_lower_empty lower strip L).
    reflexivity.
Qed.

(** ** The confusion tables *)

Section PairsLoop.
Variables (manual : Row -> list string) (pred : Row -> string).

Lemma inner_loop_appends (p : string) (l : list string) acc :
  fold_left (fun acc m => acc ++ [(m, p)]) l acc
  = acc ++ map (fun m => (m, p)) l.
Proof.
  revert acc. induction l as [|m l IH]; intros acc; simpl.
  - rewrite app_nil_r. reflexivity.
  - rewrite IH, <- app_assoc. reflexivity.
Qed.

Lemma outer_loop_appends (mm : list Row) acc :
  fold_left
    (fun acc row =>
       let pred := pred row in
       fold_left (fun acc m => acc ++ [(m, pred)]) (manual row) acc)
    mm acc
  = acc ++ flat_map (emitted manual pred) mm.
Proof.
  revert acc. induction mm as [|row mm IH]; intros acc; simpl.
  - rewrite app_nil_r. reflexivity.
  - rewrite IH, inner_loop_appends, <- app_assoc. reflexivity.
Qed.

Lemma pairs_loop_flat_map (mm : list Row) :
  pairs_loop manual pred mm = flat_map (emitted manual pred) mm.
Proof. unfold pairs_loop. apply outer_loop_appends. Qed.

Lemma pairs_loop_filter (P : Row -> Prop) `{!forall r, Decision (P r)} (df : list Row) :
  pairs_loop manual pred (filter P df)
  = flat_map (fun r => if decide (P r) then emitted manual pred r else []) df.
Proof.
  rewrite pairs_loop_flat_map.
  induction df as [|r df IH]; simpl; [reflexivity|].
  rewrite filter_cons. destruct (decide (P r)); simpl; rewrite IH; reflexivity.
Qed.

Lemma pairs_loop_origin (P : Row -> Prop) `{!forall r, Decision (P r)}
    (df : list Row) (m p : string) :
  (m, p) ∈ pairs_loop manual pred (filter P df) ->
  exists r, r ∈ df /\ P r /\ m ∈ manual r /\ p = pred r.
Proof.
  rewrite pairs_loop_flat_map. intros Hin.
  apply list_elem_of_In, in_flat_map in Hin as (r & Hr & Hmp).
  apply list_elem_of_In, list_elem_of_filter in Hr as [HP Hr].
  apply list_elem_of_In, list_elem_of_fmap in Hmp as (m' & Heq & Hm').
  inversion Heq; subst. exists r. auto.
Qed.
End PairsLoop.

Lemma crosstab_index_origin (pairs : list (string * string)) (lab : string) :
  lab ∈ index (crosstab pairs) -> exists p, (lab, p) ∈ pairs.
Proof.
  unfold crosstab, sorted, py_set. simpl. intros Hin.
  rewrite merge_sort_Permutation in Hin.
  apply elem_of_elements, elem_of_list_to_set, list_elem_of_fmap in Hin
    as ([m p] & -> & Hmp).
  exists p. exact Hmp.
Qed.

Lemma crosstab_labels_origin (pairs : list (string * string)) (lab : string) :
  lab ∈ labels (crosstab pairs) -> exists m, (m, lab) ∈ pairs.
Proof.
  unfold crosstab, sorted, py_set. simpl. intros Hin.
  rewrite merge_sort_Permutation in Hin.
  apply elem_of_elements, elem_of_list_to_set, list_elem_of_fmap in Hin
    as ([m p] & -> & Hmp).
  exists m. exact Hmp.
Qed.

(** C8: only bucket-3 records feed the confusion tables. The pair list is the
    concatenation, record by record, of nothing for a record whose bucket is
    not 3 and of one pair per manual label (so k pairs for k labels, none for
    none), each with the record's predicted value, for a record whose bucket
    is 3; every row label of a table is a manual label of some bucket-3
    record and every column label is the predicted value of one. This holds
    of the emotion table and of the domain table. *)
Theorem confusion_tables_from_mismatches_only (df : list Row) :
  (emo_pairs df
   = flat_map (fun r => if decide (bucket_emotion r = 3%Z)
                        then emitted manual_emotions_coarse classifier_emotion_norm r
                        else []) df
   /\ (forall r, bucket_emotion r <> 3%Z -> emo_pairs [r] = [])
   /\ (forall r, bucket_emotion r = 3%Z ->
         length (emo_pairs [r]) = length (manual_emotions_coarse r)
         /\ Forall (fun p => p.2 = classifier_emotion_norm r) (emo_pairs [r]))
   /\ (forall lab, lab ∈ index (crosstab (emo_pairs df)) ->
         exists r, r ∈ df /\ bucket_emotion r = 3%Z /\ lab ∈ manual_emotions_coarse r)
   /\ (forall lab, lab ∈ labels (crosstab (emo_pairs df)) ->
         exists r, r ∈ df /\ bucket_emotion r = 3%Z /\ lab = classifier_emotion_norm r))
  /\
  (dom_pairs df
   = flat_map (fun r => if decide (bucket_domain r = 3%Z)
                        then emitted manual_domains_canon classifier_domain_norm r
                        else []) df
   /\ (forall r, bucket_domain r <> 3%Z -> dom_pairs [r] = [])
   /\ (forall r, bucket_domain r = 3%Z ->
         length (dom_pairs [r]) = length (manual_domains_canon r)
         /\ Forall (fun p => p.2 = classifier_domain_norm r) (dom_pairs [r]))
   /\ (forall lab, lab ∈ index (crosstab (dom_pairs df)) ->
         exists r, r ∈ df /\ bucket_domain r = 3%Z /\ lab ∈ manual_domains_canon r)
   /\ (forall lab, lab ∈ labels (crosstab (dom_pairs df)) ->
         exists r, r ∈ df /\ bucket_domain r = 3%Z /\ lab = classifier_domain_norm r)).
Proof.
  split.
  - unfold emo_pairs. repeat split.
    + apply pairs_loop_filter.
    + intros r Hb. rewrite pairs_loop_filter. simpl.
      destruct (decide (bucket_emotion r = 3%Z)); [contradiction|reflexivity].
    + rewrite pairs_loop_filter. simpl.
      destruct (decide (bucket_emotion r = 3%Z)); [|contradiction].
      rewrite app_nil_r. apply length_map.
    + rewrite pairs_loop_filter. simpl.
      destruct (decide (bucket_emotion r = 3%Z)); [|contradiction].
      rewrite app_nil_r. apply Forall_forall. intros p Hp.
      unfold emitted in Hp.
      apply list_elem_of_fmap in Hp as (m & -> & _). reflexivity.
    + intros lab Hlab. apply crosstab_index_origin in Hlab as (p & Hin).
      apply pairs_loop_origin in Hin as (r & Hr & Hb & Hm & _). eauto.
    + intros lab Hlab. apply crosstab_labels_origin in Hlab as (m & Hin).
      apply pairs_loop_origin in Hin as (r & Hr & Hb & _ & Hp). eauto.
  - unfold dom_pairs. repeat split.
    + apply pairs_loop_filter.
    + intros r Hb. rewrite pairs_loop_filter. simpl.
      destruct (decide (bucket_domain r = 3%Z)); [contradiction|reflexivity].
    + rewrite pairs_loop_filter. simpl.
      destruct (decide (bucket_domain r = 3%Z)); [|contradiction].
      rewrite app_nil_r. apply length_map.
    + rewrite pairs_loop_filter. simpl.
      destruct (decide (bucket_domain r = 3%Z)); [|contradiction].
      rewrite app_nil_r. apply Forall_forall. intros p Hp.
      unfold emitted in Hp.
      apply list_elem_of_fmap in Hp as (m & -> & _). reflexivity.
    + intros lab Hlab. apply crosstab_index_origin in Hlab as (p & Hin).
      apply pairs_loop_origin in Hin as (r & Hr & Hb & Hm & _). eauto.
    + intros lab Hlab. apply crosstab_labels_origin in Hlab as (m & Hin).
      apply pairs_loop_origin in Hin as (r & Hr & Hb & _ & Hp). eauto.
Qed.

(** ** Scenario: manual "angry" against classifier "Disgusted" *)

(** C2, as stated, fails: "Disgust" occurs inside "Disgusted", so the search
    for a canonical name succeeds and the token is not "disgusted"; the
    bucket is not 3. *)
Lemma disgusted_is_not_passed_through :
  ~ (classifier_emotion (CStr "Disgusted") = "disgusted"
     /\ bucket_emotion (emotion_row (map_manual_emotions ["angry"])
                                    (classifier_emotion (CStr "Disgusted"))) = 3%Z).
Proof. intros [H _]. vm_compute in H. discriminate H. Qed.

(** C2, amended: for manual_emotions = ["angry"] and classifier emotion
    "Disgusted" the coarse manual list is ["anger"], the normalised
    classifier token is "disgust" (the canonical name "Disgust" is found in
    the raw string), "anger" is in the stored adjacency set of "disgust",
    and the emotion bucket is 2, also in a whole run of [main]. *)
Theorem disgusted_normalises_to_disgust :
  map_manual_emotions ["angry"] = ["anger"]
  /\ PyStr.contains "Disgust" "Disgusted" = true
  /\ classifier_emotion (CStr "Disgusted") = "disgust"
  /\ adj_lists "disgust" "anger" = true
  /\ bucket_emotion (emotion_row (map_manual_emotions ["angry"])
                                 (classifier_emotion (CStr "Disgusted"))) = 2%Z
  /\ forall literal_eval,
       bucket_emotion_col <$> main literal_eval angry_disgusted_table = Ok [2%Z].
Proof. repeat split; vm_compute; reflexivity. Qed.

(** ** Missing manual-label columns *)

Lemma get_labels_no_columns cols_all row prefix :
  get_labels cols_all row [] prefix = [].
Proof. reflexivity. Qed.

Lemma filter_startswith_none (prefix : string) (cols : list string) :
  Forall (fun c => PyStr.startswith prefix c = false) cols ->
  filter (fun c => PyStr.startswith prefix c = true) cols = [].
Proof.
  induction 1 as [|c cols Hc _ IH]; [reflexivity|].
  rewrite filter_cons_False; [exact IH|]. rewrite Hc. discriminate.
Qed.

Lemma manual_labels_without_columns literal_eval (df : DataFrame) :
  "manual_emotions" ∉ columns df ->
  Forall (fun c => PyStr.startswith "Answer.f1." c = false) (columns df) ->
  Forall (fun c => PyStr.startswith "Answer.t1." c = false) (columns df) ->
  manual_labels literal_eval df = (no_labels df, no_labels df).
Proof.
  intros He Hf Ht. unfold manual_labels.
  rewrite (bool_decide_eq_false_2 _ He). cbn [negb orb].
  rewrite (filter_startswith_none _ _ Hf), (filter_startswith_none _ _ Ht).
  reflexivity.
Qed.

Lemma mapM_no_labels {B} (f : list string -> B) (l : list (list cell)) :
  mapM (fun v => f <$> tokens v) (map (fun _ => PList []) l)
  = Ok (map (fun _ => f []) l).
Proof.
  induction l as [|r l IH]; [reflexivity|].
  simpl in *. rewrite IH. reflexivity.
Qed.

(** C3, as stated, fails: a table with the two classifier columns and no
    manual-label column of either kind is processed to the end. *)
Lemma missing_manual_columns_not_fatal :
  ~ (forall literal_eval (df : DataFrame),
       "manual_emotions" ∉ columns df ->
       "manual_domains" ∉ columns df ->
       Forall (fun c => PyStr.startswith "Answer.f1." c = false) (columns df) ->
       Forall (fun c => PyStr.startswith "Answer.t1." c = false) (columns df) ->
       exists e, main literal_eval df = Raise e).
Proof.
  intros H.
  destruct (H LiteralEval.literal_eval unlabelled_table) as [e He].
  - decide_by_computation.
  - decide_by_computation.
  - repeat constructor.
  - repeat constructor.
  - vm_compute in He. discriminate He.
Qed.

Lemma column_present (df : DataFrame) (c : string) :
  c ∈ columns df ->
  column df c = Ok (map (fun row => row_get (columns df) row c CNaN) (rows df)).
Proof. intros Hin. unfold column. rewrite (bool_decide_eq_true_2 _ Hin). reflexivity. Qed.

Lemma zip_rows_no_labels (coarse canon : list (list string)) (emo dom : list string) :
  Forall (fun l => l = []) coarse ->
  Forall (fun l => l = []) canon ->
  Forall (fun r => manual_emotions_coarse r = [] /\ manual_domains_canon r = [])
         (zip_rows coarse emo canon dom).
Proof.
  unfold zip_rows. intros Hc. revert emo canon dom.
  induction Hc as [|c coarse Hc0 _ IH]; intros emo canon dom Hk; [constructor|].
  destruct emo as [|e emo]; [constructor|].
  destruct Hk as [|k canon Hk0 Hk]; [constructor|].
  destruct dom as [|d dom]; [constructor|].
  simpl. constructor; [auto|]. apply IH, Hk.
Qed.

Lemma Forall_map_const {A B} (b : B) (P : B -> Prop) (l : list A) :
  P b -> Forall P (map (fun _ => b) l).
Proof. intros Hb. induction l; simpl; constructor; auto. Qed.

(** C3, amended: in a table with at least one record and neither the
    manual_emotions / manual_domains columns nor any column with the
    annotation prefixes, nothing fails at the label-building step: every
    record gets the empty list for both manual columns, and when the two
    classifier columns are there the run completes with empty coarse and
    canonical manual labels on every record. *)
Theorem missing_manual_columns_give_empty_labels
    (literal_eval : string -> option pyval) (df : DataFrame) :
  rows df <> [] ->
  "manual_emotions" ∉ columns df ->
  "manual_domains" ∉ columns df ->
  Forall (fun c => PyStr.startswith "Answer.f1." c = false) (columns df) ->
  Forall (fun c => PyStr.startswith "Answer.t1." c = false) (columns df) ->
  manual_labels literal_eval df = (no_labels df, no_labels df)
  /\ ("EmotionPro" ∈ columns df -> "DomainPro" ∈ columns df ->
      exists out,
        main literal_eval df = Ok out
        /\ manual_emotions out = no_labels df
        /\ manual_domains out = no_labels df
        /\ Forall (fun r => manual_emotions_coarse r = [] /\ manual_domains_canon r = [])
                  (derived out)).
Proof.
  intros Hrows He _ Hf Ht.
  pose proof (manual_labels_without_columns literal_eval df He Hf Ht) as Hlab.
  split; [exact Hlab|].
  intros Hemo Hdom. unfold main. rewrite Hlab. unfold no_labels.
  rewrite (mapM_no_labels map_manual_emotions). cbn [mbind result_bind].
  rewrite (column_present df "EmotionPro" Hemo). cbn [mbind result_bind].
  rewrite (column_present df "DomainPro" Hdom). cbn [mbind result_bind].
  rewrite (mapM_no_labels (map (fun x => canonical_domain (Some x)))).
  cbn [mbind result_bind]. rewrite (bool_decide_eq_false_2 _ Hrows).
  eexists. split; [reflexivity|]. cbn [manual_emotions manual_domains derived].
  split; [reflexivity|]. split; [reflexivity|].
  apply zip_rows_no_labels; apply Forall_map_const; reflexivity.
Qed.

Lemma missing_manual_columns_give_empty_labels_witness :
  manual_labels LiteralEval.literal_eval unlabelled_table
  = ([PList []], [PList []])
  /\ exists out,
       main LiteralEval.literal_eval unlabelled_table = Ok out
       /\ manual_emotions out = [PList []]
       /\ manual_domains out = [PList []]
       /\ Forall (fun r => manual_emotions_coarse r = [] /\ manual_domains_canon r = [])
                 (derived out).
Proof.
  destruct (missing_manual_columns_give_empty_labels
              LiteralEval.literal_eval unlabelled_table) as [Hlab Hrun].
  - discriminate.
  - decide_by_computation.
  - decide_by_computation.
  - repeat constructor.
  - repeat constructor.
  - split; [exact Hlab|]. apply Hrun; decide_by_computation.
Defined.

(** ** [ensure_list] *)

Section EnsureList.
Variable literal_eval : string -> option pyval.

Lemma ensure_list_list (l : list pyval) :
ensure_list literal_eval (PList l) = PList l.
Proof. reflexivity. Qed.

Lemma ensure_list_raises (s : string) :
literal_eval s = None -> ensure_list literal_eval (PStr s) = PList [].
Proof. intros H. simpl. rewrite H. reflexivity. Qed.

Lemma ensure_list_other (x : pyval) :
(forall l, x <> PList l) -> (forall s, x <> PStr s) ->
ensure_list literal_eval x = PList [].
Proof. intros Hl Hs. destruct x; try reflexivity; [destruct (Hs s)|destruct (Hl l)]; reflexivity. Qed.

Lemma ensure_list_evaluated (s : string) (v : pyval) :
literal_eval s = Some v -> ensure_list literal_eval (PStr s) = v.
Proof. intros H. simpl. rewrite H. reflexivity. Qed.
End EnsureList.

(** C9: the text of a literal that is not a list is returned as that value,
    not as a list: the number 5 for the cell "5", the string for a quoted
    word. A run of [main] on the first then stops with TypeError, and on the
    second takes the characters of the word as labels. The cell holding the
    text of a list is parsed to that list. *)
Theorem ensure_list_returns_non_list :
  ensure_list LiteralEval.literal_eval (PStr "5") = PInt 5
  /\ is_list (ensure_list LiteralEval.literal_eval (PStr "5")) = false
  /\ main LiteralEval.literal_eval (manual_cell_table "5") = Raise TypeError
  /\ ensure_list LiteralEval.literal_eval (PStr "'happy'") = PStr "happy"
  /\ derived <$> main LiteralEval.literal_eval (manual_cell_table "'happy'")
     = Ok [{| manual_emotions_coarse := ["a"; "h"; "p"; "y"];
              classifier_emotion_norm := "joy";
              manual_domains_canon := ["work/career"];
              classifier_domain_norm := "work/career" |}]
  /\ ensure_list LiteralEval.literal_eval (PStr "['happy', 'sad']")
     = PList [PStr "happy"; PStr "sad"].
Proof. repeat split; vm_compute; reflexivity. Qed.

(** ** Witnesses and scenarios on concrete records *)

Lemma canonical_domain_idempotent_witness :
  canonical_domain (Some (canonical_domain (Some " Fitness ")))
  = canonical_domain (Some " Fitness ")
  /\ canonical_domain (Some "exercise/fitness") = "exercise/fitness".
Proof.
  destruct (canonical_domain_idempotent PyStr.lower PyStr.strip ascii_methods)
    as [Hidem Hcanon].
  split.
  - apply (Hidem (Some " Fitness ")).
  - apply (Hcanon "fitness"). reflexivity.
Defined.

Lemma confusion_tables_from_mismatches_only_witness :
  length (emo_pairs [emotion_row ["joy"; "surprise"] "fear"]) = 2
  /\ dom_pairs [domain_row ["family"] "friends"] = [].
Proof.
  destruct (confusion_tables_from_mismatches_only []) as [(_ & _ & He & _) (_ & Hd & _)].
  split.
  - apply (He (emotion_row ["joy"; "surprise"] "fear")). vm_compute. reflexivity.
  - apply (Hd (domain_row ["family"] "friends")). vm_compute. discriminate.
Defined.

Example split_slash :
  PyStr.split "/" "relationships/marriage/partnership"
  = ["relationships"; "marriage"; "partnership"].
Proof. reflexivity. Qed.

Example split_edge : PyStr.split "/" "/" = [""; ""] /\ PyStr.split "/" "" = [""].
Proof. split; reflexivity. Qed.

Example replace_raw :
  PyStr.replace ".raw" "" (PyStr.replace "Answer.f1." "" "Answer.f1.Happy.raw") = "Happy".
Proof. reflexivity. Qed.

Example scenario_proud_joy :
  bucket_emotion (emotion_row (map_manual_emotions ["proud"])
                    (classifier_emotion (CStr ("3 " +:+ en_dash +:+ " Joy")))) = 1%Z.
Proof. vm_compute. reflexivity. Qed.

Example scenario_fitness_exercise :
  bucket_domain (domain_row [canonical_domain (Some "fitness")]
                            (classifier_domain (CStr "EXERCISE"))) = 1%Z.
Proof. vm_compute. reflexivity. Qed.

Example scenario_nothing_on_either_side : bucket_domain (domain_row [] "") = 2%Z.
Proof. vm_compute. reflexivity. Qed.

Example scenario_love_relationships :
  bucket_domain (domain_row [canonical_domain (Some "love")]
                            (classifier_domain (CStr "relationships"))) = 2%Z.
Proof. vm_compute. reflexivity. Qed.

Example scenario_joy_sadness_anger :
  bucket_emotion (emotion_row ["joy"; "sadness"] "anger") = 2%Z
  /\ emo_pairs [emotion_row ["joy"; "sadness"] "anger"] = [].
Proof. split; vm_compute; reflexivity. Qed.

Example run_with_list_cells :
  (fun out => (bucket_emotion_col out, bucket_domain_col out, emo_cm out))
  <$> main LiteralEval.literal_eval
        {| columns := ["manual_emotions"; "manual_domains"; "EmotionPro"; "DomainPro"];
           rows := [ [CStr "['proud']"; CStr "['fitness']";
                      CStr ("3 " +:+ en_dash +:+ " Joy"); CStr "EXERCISE"];
                     [CStr "['happy', 'sad']"; CStr "['love']";
                      CStr "Fear"; CStr "relationships"];
                     [CStr "['happy', 'surprised']"; CStr "[]"; CStr "Fear"; CNaN] ] |}
  = Ok ([1; 2; 3]%Z, [1; 2; 3]%Z,
        {| index := ["joy"; "surprise"]; labels := ["fear"]; counts := [[1]; [1]] |}).
Proof. vm_compute. reflexivity. Qed.

(** * Further properties of the script *)

(** ** Scanning for a substring: [in], [replace] and [split] *)

Section Scanning.
Import PyStr.

Lemma append_cons a (s1 s2 : string) : String a s1 +:+ s2 = String a (s1 +:+ s2).
Proof. reflexivity. Qed.

Lemma append_empty_l (s : string) : "" +:+ s = s.
Proof. reflexivity. Qed.

Lemma startswith_app (p s : string) : startswith p (p +:+ s) = true.
Proof.
  induction p as [|a p IH]; [reflexivity|].
  rewrite append_cons. simpl.
  rewrite decide_True by reflexivity. exact IH.
Qed.

Lemma startswith_length (p s : string) :
  startswith p s = true -> exists r, s = p +:+ r.
Proof.
  revert s. induction p as [|a p IH]; intros s H; simpl in *.
  - exists s. reflexivity.
  - destruct s as [|b s]; [discriminate|].
    destruct (decide (a = b)) as [->|]; [|discriminate].
    destruct (IH s H) as [r ->]. exists r. reflexivity.
Qed.

Lemma contains_head (k s : string) :
  contains k s = false -> startswith k s = false.
Proof. destruct s; simpl; intros H; apply orb_false_iff in H; tauto. Qed.

Lemma contains_tail (k : string) a (s : string) :
  contains k (String a s) = false -> contains k s = false.
Proof. simpl. intros H. apply orb_false_iff in H. tauto. Qed.

Lemma append_assoc (s1 s2 s3 : string) : (s1 +:+ s2) +:+ s3 = s1 +:+ s2 +:+ s3.
Proof.
  induction s1 as [|a s1 IH]; [reflexivity|].
  rewrite !append_cons, IH. reflexivity.
Qed.

Lemma length_append (s1 s2 : string) :
  String.length (s1 +:+ s2) = String.length s1 + String.length s2.
Proof.
  induction s1 as [|a s1 IH]; [reflexivity|].
  rewrite append_cons. simpl. rewrite IH. reflexivity.
Qed.

Lemma append_empty_r (s : string) : s +:+ "" = s.
Proof. induction s as [|a s IH]; [reflexivity|]. rewrite append_cons, IH. reflexivity. Qed.

(** A separator whose first character does not come back in its tail cannot
    overlap a later copy of itself: a match that starts inside [u] lies
    within [u]. *)
Lemma startswith_within (a0 : ascii) (t u r : string) :
  contains (String a0 "") t = false ->
  startswith t (u +:+ String a0 r) = true ->
  startswith t u = true.
Proof.
  revert u. induction t as [|b t IH]; intros u Hno H; [reflexivity|].
  pose proof (contains_head _ _ Hno) as Hb.
  pose proof (contains_tail _ _ _ Hno) as Ht.
  simpl in Hb. destruct (decide (a0 = b)) as [->|Hne]; [discriminate|].
  destruct u as [|c u].
  - rewrite append_empty_l in H. simpl in H.
    destruct (decide (b = a0)) as [->|]; [contradiction|discriminate].
  - rewrite append_cons in H. simpl in *.
    destruct (decide (b = c)); [|discriminate]. apply IH; assumption.
Qed.

Lemma no_match_inside (a0 : ascii) (t u r : string) :
  contains (String a0 "") t = false ->
  u <> "" ->
  contains (String a0 t) u = false ->
  startswith (String a0 t) (u +:+ String a0 t +:+ r) = false.
Proof.
  intros Hno Hu Hc. destruct u as [|c u]; [contradiction|].
  apply contains_head in Hc. rewrite append_cons. simpl in *.
  destruct (decide (a0 = c)); [|reflexivity].
  destruct (startswith t (u +:+ String a0 t +:+ r)) eqn:E; [|reflexivity].
  rewrite append_cons in E.
  apply startswith_within in E; [|exact Hno]. congruence.
Qed.

(** *** [replace] *)

Lemma replace_go_skip (old new u s : string) :
  replace_go old new (String.length u) (u +:+ s) = replace_go old new 0 s.
Proof. induction u as [|a u IH]; [reflexivity|]. rewrite append_cons. exact IH. Qed.

Lemma replace_at_match (a0 : ascii) (t new s : string) :
  replace (String a0 t) new (String a0 t +:+ s)
  = new +:+ replace (String a0 t) new s.
Proof.
  unfold replace. rewrite append_cons. cbn [replace_go].
  rewrite <- append_cons, startswith_app.
  replace (String.length (String a0 t) - 1) with (String.length t) by (simpl; lia).
  rewrite replace_go_skip. reflexivity.
Qed.

Lemma replace_absent (old new s : string) :
  contains old s = false -> replace old new s = s.
Proof.
  unfold replace. induction s as [|a s IH]; intros H; [reflexivity|].
  cbn [replace_go]. rewrite (contains_head _ _ H).
  rewrite IH by (eapply contains_tail, H). reflexivity.
Qed.

Lemma replace_after_stem (a0 : ascii) (t new stem s : string) :
  contains (String a0 "") t = false ->
  contains (String a0 t) stem = false ->
  replace (String a0 t) new (stem +:+ String a0 t +:+ s)
  = stem +:+ new +:+ replace (String a0 t) new s.
Proof.
  intros Hno. induction stem as [|c stem IH]; intros Hc.
  - apply replace_at_match.
  - pose proof (no_match_inside a0 t (String c stem) s Hno) as Hnm.
    rewrite (append_cons c stem) in Hnm.
    unfold replace in *. rewrite !(append_cons c stem).
    cbn [replace_go]. rewrite Hnm by (auto; discriminate).
    rewrite IH by (eapply contains_tail, Hc). reflexivity.
Qed.

(** *** [split] *)

Lemma split_go_skip (sep u cur s : string) :
  split_go sep (String.length u) cur (u +:+ s) = split_go sep 0 cur s.
Proof. induction u as [|a u IH]; [reflexivity|]. rewrite append_cons. exact IH. Qed.

Lemma split_go_absent (sep cur s : string) :
  contains sep s = false -> split_go sep 0 cur s = [cur +:+ s].
Proof.
  revert cur. induction s as [|a s IH]; intros cur H.
  - simpl. rewrite append_empty_r. reflexivity.
  - cbn [split_go]. rewrite (contains_head _ _ H).
    rewrite IH by (eapply contains_tail, H).
    rewrite append_assoc, append_cons, append_empty_l. reflexivity.
Qed.

Lemma split_go_nonempty (sep : string) skip cur (s : string) :
  split_go sep skip cur s <> [].
Proof.
  revert skip cur. induction s as [|a s IH]; intros skip cur; simpl; [discriminate|].
  destruct skip; [|apply IH].
  destruct (startswith sep (String a s)); [discriminate|apply IH].
Qed.

Lemma last_cons_nonempty {A} (x d : A) (l : list A) :
  l <> [] -> List.last (x :: l) d = List.last l d.
Proof. destruct l; [contradiction|reflexivity]. Qed.

Lemma split_go_last (a0 : ascii) (t a b : string) :
  contains (String a0 "") t = false ->
  contains (String a0 t) b = false ->
  forall cur,
    last_piece (split_go (String a0 t) 0 cur (a +:+ String a0 t +:+ b)) = b.
Proof.
  intros Hno Hb. unfold last_piece.
  assert (forall n a, String.length a < n -> forall cur,
            List.last (split_go (String a0 t) 0 cur (a +:+ String a0 t +:+ b)) "" = b)
    as Hn; [|intros cur; apply (Hn (S (String.length a))); lia].
  clear a. induction n as [|n IH]; intros a Hlen cur; [lia|].
  destruct a as [|c a].
  - rewrite append_empty_l, append_cons. cbn [split_go].
    rewrite <- append_cons, startswith_app.
    replace (String.length (String a0 t) - 1) with (String.length t) by (simpl; lia).
    rewrite split_go_skip, split_go_absent by exact Hb. reflexivity.
  - rewrite append_cons. cbn [split_go].
    destruct (startswith (String a0 t) (String c (a +:+ String a0 t +:+ b))) eqn:E.
    + simpl in E. destruct (decide (a0 = c)); [|discriminate].
      rewrite append_cons in E.
      apply startswith_within in E; [|exact Hno].
      apply startswith_length in E as [a' ->].
      rewrite last_cons_nonempty by apply split_go_nonempty.
      replace (String.length (String a0 t) - 1) with (String.length t) by (simpl; lia).
      rewrite append_assoc, split_go_skip.
      apply IH. simpl in Hlen. rewrite length_append in Hlen. lia.
    + apply IH. simpl in Hlen. lia.
Qed.

End Scanning.

(** ** The classifier emotion cell *)

(** X1: a classifier emotion cell is normalised from what follows its last
    en dash: when [label] holds no en dash, the cell [label] and every cell
    made of a prefix, an en dash and [label] give the token of the stripped
    [label]. *)
Theorem classifier_emotion_after_last_dash (label : string) :
  PyStr.contains en_dash label = false ->
  classifier_emotion (CStr label) = normalize_emotion_label (Some (PyStr.strip label))
  /\ forall pre : string,
       classifier_emotion (CStr (pre +:+ en_dash +:+ label))
       = normalize_emotion_label (Some (PyStr.strip label)).
Proof.
  intros Hno. unfold classifier_emotion, astype_str. split.
  - unfold PyStr.split. rewrite split_go_absent by exact Hno. reflexivity.
  - intros pre. unfold PyStr.split, en_dash.
    rewrite split_go_last; [reflexivity|reflexivity|exact Hno].
Qed.

Lemma classifier_emotion_after_last_dash_witness :
  classifier_emotion (CStr " Joy") = "joy"
  /\ classifier_emotion (CStr (("12 " +:+ en_dash +:+ " x ") +:+ en_dash +:+ " Joy")) = "joy".
Proof.
  destruct (classifier_emotion_after_last_dash " Joy") as [H1 H2].
  - reflexivity.
  - split; [exact H1|]. apply (H2 ("12 " +:+ en_dash +:+ " x ")).
Defined.

(** ** Labels from the annotation columns *)





(** ** Output paths *)

(** X3: with no output option given and an input path that ends in ".csv"
    and holds no other ".csv", the three outputs are the input path with
    "_with_buckets", "_emotion_cm" and "_domain_cm" put before ".csv". *)
Theorem default_output_paths (stem : string) :
  PyStr.contains ".csv" stem = false ->
  let args := default_args (stem +:+ ".csv") in
  out_aug args = stem +:+ "_with_buckets.csv"
  /\ out_emo args = stem +:+ "_emotion_cm.csv"
  /\ out_dom args = stem +:+ "_domain_cm.csv".
Proof.
  intros Hno args. unfold out_aug, out_emo, out_dom, args, default_args, py_or.
  cbn [input output emotion_cm domain_cm].
  replace (stem +:+ ".csv") with (stem +:+ ".csv" +:+ "")
    by (rewrite (append_empty_r ".csv"); reflexivity).
  rewrite !(replace_after_stem "." "csv" _ stem "") by (reflexivity || exact Hno).
  unfold PyStr.replace. simpl. rewrite !append_empty_r. auto.
Qed.

Lemma default_output_paths_witness :
  out_aug (default_args "run1/out.csv") = "run1/out_with_buckets.csv"
  /\ out_emo (default_args "run1/out.csv") = "run1/out_emotion_cm.csv"
  /\ out_dom (default_args "run1/out.csv") = "run1/out_domain_cm.csv".
Proof. apply (default_output_paths "run1/out"). reflexivity. Defined.

(** X4: when the input path holds no ".csv" and an output option is missing
    or empty, the default for it is the input path itself: with no option
    given, the three tables are all written to the input file. *)
Theorem output_paths_without_csv (args : Args) :
  PyStr.contains ".csv" (input args) = false ->
  (output args = None \/ output args = Some "") ->
  (emotion_cm args = None \/ emotion_cm args = Some "") ->
  (domain_cm args = None \/ domain_cm args = Some "") ->
  out_aug args = input args /\ out_emo args = input args /\ out_dom args = input args.
Proof.
  intros Hno [Ho|Ho] [He|He] [Hd|Hd]; unfold out_aug, out_emo, out_dom, py_or;
    rewrite Ho, He, Hd, !(replace_absent _ _ _ Hno); auto.
Qed.

Lemma output_paths_without_csv_witness :
  out_aug (default_args "results.tsv") = "results.tsv"
  /\ out_emo (default_args "results.tsv") = "results.tsv"
  /\ out_dom (default_args "results.tsv") = "results.tsv".
Proof.
  apply (output_paths_without_csv (default_args "results.tsv"));
    [reflexivity | left; reflexivity ..].
Defined.

(** ** What the bucket codes say *)

Lemma existsb_false_iff {A} (f : A -> bool) (l : list A) :
  existsb f l = false <-> forall x, x ∈ l -> f x = false.
Proof.
  split.
  - intros H x Hx. destruct (f x) eqn:E; [|reflexivity].
    rewrite <- H. symmetry. apply existsb_exists. exists x.
    split; [apply list_elem_of_In, Hx|exact E].
  - intros H. destruct (existsb f l) eqn:E; [|reflexivity].
    apply existsb_exists in E as (x & Hx & Hfx).
    rewrite (H x) in Hfx by (apply list_elem_of_In, Hx). discriminate.
Qed.

(** X5: the emotion bucket is 1, 2 or 3, and it is 1 exactly when the
    classifier emotion is one of the record's coarse manual emotions. *)
Theorem bucket_emotion_exact_iff (row : Row) :
  (bucket_emotion row = 1%Z \/ bucket_emotion row = 2%Z \/ bucket_emotion row = 3%Z)
  /\ (bucket_emotion row = 1%Z
      <-> classifier_emotion_norm row ∈ manual_emotions_coarse row).
Proof.
  unfold bucket_emotion.
  set (mset := py_set (manual_emotions_coarse row)).
  set (c := classifier_emotion_norm row).
  assert (c ∈ mset <-> c ∈ manual_emotions_coarse row) as Hmem
    by apply elem_of_list_to_set.
  rewrite <- Hmem.
  destruct (bool_decide (mset = ∅)) eqn:Hm.
  - apply bool_decide_eq_true in Hm.
    assert (c ∉ mset) as Hout by (rewrite Hm; apply not_elem_of_empty).
    rewrite (bool_decide_eq_false_2 _ Hout).
    destruct (negb (PyStr.truthy c)); simpl.
    + split; [auto|]. split; [discriminate|contradiction].
    + destruct (_ && _); [split; [auto|]; split; [discriminate|contradiction]|].
      destruct (existsb _ _); (split; [auto|]; split; [discriminate|contradiction]).
  - simpl. destruct (bool_decide (c ∈ mset)) eqn:Hc.
    + apply bool_decide_eq_true in Hc. split; [auto|]. split; auto.
    + apply bool_decide_eq_false in Hc.
      destruct (_ && _); [split; [auto|]; split; [discriminate|contradiction]|].
      destruct (existsb _ _); (split; [auto|]; split; [discriminate|contradiction]).
Qed.

Lemma bucket_emotion_exact_iff_witness :
  bucket_emotion (emotion_row ["joy"; "sadness"] "sadness") = 1%Z.
Proof.
  apply (bucket_emotion_exact_iff (emotion_row ["joy"; "sadness"] "sadness")).
  simpl. decide_by_computation.
Defined.

Lemma bucket_domain_codes (row : Row) :
  let c := classifier_domain_norm row in
  (bucket_domain row = 1%Z \/ bucket_domain row = 2%Z \/ bucket_domain row = 3%Z)
  /\ (bucket_domain row = 1%Z
      <-> (c <> "" /\ c ∈ manual_domains_canon row)
          \/ (PyStr.contains "/" c = true
              /\ exists p, p ∈ PyStr.split "/" c /\ p <> ""
                           /\ p ∈ manual_domains_canon row)).
Proof.
  intros c. unfold bucket_domain. fold c.
  set (mset := py_set (filter (fun x => PyStr.truthy x = true) (manual_domains_canon row))).
  assert (forall x, x ∈ mset <-> x <> "" /\ x ∈ manual_domains_canon row) as Hmem.
  { intros x. unfold mset, py_set.
    rewrite elem_of_list_to_set, list_elem_of_filter, truthy_true. reflexivity. }
  assert (existsb (fun p => bool_decide (p ∈ mset)) (PyStr.split "/" c) = true
          <-> exists p, p ∈ PyStr.split "/" c /\ p <> "" /\ p ∈ manual_domains_canon row)
    as Hparts.
  { rewrite existsb_exists. split.
    - intros (p & Hp & Hin). apply bool_decide_eq_true, Hmem in Hin.
      exists p. split; [apply list_elem_of_In, Hp|exact Hin].
    - intros (p & Hp & Hin). exists p. split; [apply list_elem_of_In, Hp|].
      apply bool_decide_eq_true, Hmem, Hin. }
  rewrite <- Hmem, <- Hparts.
  destruct (bool_decide (mset = ∅) && negb (PyStr.truthy c)) eqn:Hee.
  - apply andb_true_iff in Hee as [Hm Hc].
    apply bool_decide_eq_true in Hm. apply negb_true_iff, truthy_false in Hc.
    split; [auto|]. split; [discriminate|].
    intros [Hin|[Hs _]].
    + rewrite Hm in Hin. destruct (not_elem_of_empty (C:=gset string) c Hin).
    + rewrite Hc in Hs. discriminate Hs.
  - destruct (bool_decide (c ∈ mset)) eqn:Hc.
    { apply bool_decide_eq_true in Hc. split; [auto|]. split; auto. }
    apply bool_decide_eq_false in Hc.
    destruct (PyStr.contains "/" c) eqn:Hs; simpl.
    + destruct (existsb (fun p => bool_decide (p ∈ mset)) (PyStr.split "/" c)) eqn:Hp.
      { split; [auto|]. split; auto. }
      destruct (existsb _ (elements mset));
        (split; [auto|]; split; [discriminate|]; intros [?|[_ ?]];
         [contradiction|discriminate]).
    + destruct (existsb _ (elements mset));
        (split; [auto|]; split; [discriminate|]; intros [?|[? _]];
         [contradiction|discriminate]).
Qed.

(** X6: the domain bucket is 1, 2 or 3, and it is 1 exactly when the
    classifier domain is a non-empty manual domain of the record, or
    contains "/" and one of its "/"-separated parts is one. *)
Theorem bucket_domain_exact_iff (row : Row) :
  let c := classifier_domain_norm row in
  (bucket_domain row = 1%Z \/ bucket_domain row = 2%Z \/ bucket_domain row = 3%Z)
  /\ (bucket_domain row = 1%Z
      <-> (c <> "" /\ c ∈ manual_domains_canon row)
          \/ (PyStr.contains "/" c = true
              /\ exists p, p ∈ PyStr.split "/" c /\ p <> ""
                           /\ p ∈ manual_domains_canon row)).
Proof. exact (bucket_domain_codes row). Qed.

Lemma bucket_domain_exact_iff_witness :
  bucket_domain (domain_row ["knitting"] "knitting/sewing") = 1%Z.
Proof.
  apply (bucket_domain_exact_iff (domain_row ["knitting"] "knitting/sewing")).
  right. split; [reflexivity|]. exists "knitting".
  split; [decide_by_computation|]. split; [discriminate|decide_by_computation].
Defined.

(** X7: a record without usable manual labels is never an exact match. With
    an empty coarse manual list the emotion bucket is 2 for an empty
    classifier emotion and 3 for any other; with only empty strings (or
    nothing) among the canonical manual domains the same holds of the
    domain bucket. *)
Theorem buckets_without_manual_labels (row : Row) :
  (manual_emotions_coarse row = [] ->
   bucket_emotion row = if decide (classifier_emotion_norm row = "") then 2%Z else 3%Z)
  /\ (Forall (fun x => x = "") (manual_domains_canon row) ->
      bucket_domain row = if decide (classifier_domain_norm row = "") then 2%Z else 3%Z).
Proof.
  split.
  - intros Hnil. unfold bucket_emotion. rewrite Hnil.
    change (py_set []) with (∅ : gset string).
    rewrite (bool_decide_eq_true_2 (∅ = ∅)) by reflexivity.
    rewrite (bool_decide_eq_false_2 (_ ∈ ∅)) by apply not_elem_of_empty.
    rewrite size_empty, elements_empty.
    rewrite (bool_decide_eq_false_2 (1 < 0)) by lia.
    rewrite andb_false_r. simpl.
    destruct (decide (classifier_emotion_norm row = "")) as [->|Hc]; [reflexivity|].
    apply truthy_true in Hc. rewrite Hc. reflexivity.
  - intros Hall. unfold bucket_domain.
    assert (filter (fun x => PyStr.truthy x = true) (manual_domains_canon row) = []) as ->.
    { induction Hall as [|x l Hx _ IH]; [reflexivity|].
      subst x. rewrite filter_cons_False; [exact IH|]. simpl. discriminate. }
    change (py_set []) with (∅ : gset string).
    rewrite (bool_decide_eq_true_2 (∅ = ∅)) by reflexivity.
    rewrite (bool_decide_eq_false_2 (_ ∈ ∅)) by apply not_elem_of_empty.
    rewrite elements_empty.
    match goal with |- context [existsb ?f (PyStr.split ?s ?c)] =>
      assert (existsb f (PyStr.split s c) = false) as ->
    end.
    { apply existsb_false_iff. intros p _.
      apply bool_decide_eq_false_2, not_elem_of_empty. }
    rewrite andb_false_r. simpl.
    destruct (decide (classifier_domain_norm row = "")) as [->|Hc]; [reflexivity|].
    apply truthy_true in Hc. rewrite Hc. reflexivity.
Qed.

Lemma buckets_without_manual_labels_witness :
  bucket_emotion (emotion_row [] "joy") = 3%Z
  /\ bucket_domain (domain_row [""; ""] "work/career") = 3%Z.
Proof.
  split.
  - apply (proj1 (buckets_without_manual_labels (emotion_row [] "joy"))). reflexivity.
  - apply (proj2 (buckets_without_manual_labels (domain_row [""; ""] "work/career"))).
    repeat constructor.
Defined.

(** ** Tolerant matching on emotions *)

Lemma adjacency_table_closed :
  map_Forall (fun k s => (k ∈ COARSE) /\ (k ∉ s) /\ set_Forall (fun v => v ∈ COARSE) s)
             EMOTION_ADJ.
Proof. eapply bool_decide_eq_true_1. vm_compute. reflexivity. Qed.

Lemma adj_lists_coarse (k v : string) :
  adj_lists k v = true -> k ∈ COARSE /\ v ∈ COARSE /\ k <> v.
Proof.
  unfold adj_lists. destruct (EMOTION_ADJ !! k) as [s|] eqn:E; [|discriminate].
  intros Hv. apply bool_decide_eq_true in Hv.
  destruct (adjacency_table_closed k s E) as (Hk & Hself & Hs).
  split; [exact Hk|]. split; [apply Hs, Hv|]. intros ->. contradiction.
Qed.

(** X8: the two-way adjacency test holds only between two different names
    of the eight coarse emotions, and does not depend on the order of its
    arguments. *)
Theorem adjacency_only_between_coarse_names (c mm : string) :
  adjacency_test c mm = adjacency_test mm c
  /\ (adjacency_test c mm = true -> c ∈ COARSE /\ mm ∈ COARSE /\ c <> mm).
Proof.
  unfold adjacency_test. split; [apply orb_comm|].
  intros H. apply orb_true_iff in H as [H|H]; apply adj_lists_coarse in H.
  - exact H.
  - destruct H as (Hm & Hc & Hne). auto.
Qed.

Lemma adjacency_only_between_coarse_names_witness :
  "fear" ∈ COARSE /\ "sadness" ∈ COARSE /\ "fear" <> "sadness".
Proof.
  apply (adjacency_only_between_coarse_names "fear" "sadness"). reflexivity.
Defined.

(** X9: a classifier emotion outside the eight coarse names (an unknown
    label passed through, or "nan" for a missing cell) is matched by
    equality only: if it is not among the manual emotions the bucket is 3,
    except for the empty token against an empty manual list, which gives 2. *)
Theorem unknown_classifier_emotion_never_tolerated (row : Row) :
  classifier_emotion_norm row ∉ COARSE ->
  classifier_emotion_norm row ∉ manual_emotions_coarse row ->
  bucket_emotion row
  = if decide (manual_emotions_coarse row = [] /\ classifier_emotion_norm row = "")
    then 2%Z else 3%Z.
Proof.
  intros Hunk Hout. unfold bucket_emotion.
  set (mset := py_set (manual_emotions_coarse row)).
  set (c := classifier_emotion_norm row) in *.
  assert (mset = ∅ <-> manual_emotions_coarse row = []) as Hempty.
  { unfold mset, py_set. split.
    - destruct (manual_emotions_coarse row) as [|x l]; [reflexivity|].
      intros H. assert (x ∈ (∅ : gset string)) as Hx by (rewrite <- H; set_solver).
      destruct (not_elem_of_empty (C:=gset string) x Hx).
    - intros ->. reflexivity. }
  assert (bool_decide (mset = ∅) && negb (PyStr.truthy c)
          = bool_decide (manual_emotions_coarse row = [] /\ c = "")) as ->.
  { destruct (decide (manual_emotions_coarse row = [] /\ c = "")) as [[Hl Hc]|Hne].
    - rewrite (bool_decide_eq_true_2 (_ /\ _)) by auto.
      rewrite (bool_decide_eq_true_2 (mset = ∅)) by (apply Hempty, Hl).
      apply truthy_false in Hc. rewrite Hc. reflexivity.
    - rewrite (bool_decide_eq_false_2 (_ /\ _)) by exact Hne.
      apply andb_false_iff. destruct (decide (mset = ∅)) as [Hm|Hm].
      + right. apply negb_false_iff, truthy_true. intros Hc.
        apply Hne. split; [apply Hempty, Hm|exact Hc].
      + left. apply bool_decide_eq_false_2, Hm. }
  rewrite (bool_decide_decide (_ /\ _)).
  destruct (decide (manual_emotions_coarse row = [] /\ c = "")); [reflexivity|].
  rewrite (bool_decide_eq_false_2 (c ∈ mset))
    by (unfold mset, py_set; rewrite elem_of_list_to_set; exact Hout).
  rewrite (bool_decide_eq_false_2 (c = "mixed"))
    by (intros Hmx; apply Hunk; rewrite Hmx; decide_by_computation).
  assert (existsb (adjacency_test c) (elements mset) = false) as ->; [|reflexivity].
  apply existsb_false_iff. intros mm _.
  unfold adjacency_test. apply orb_false_iff.
  split; apply not_true_is_false; intros H; apply adj_lists_coarse in H; tauto.
Qed.

Lemma unknown_classifier_emotion_never_tolerated_witness :
  bucket_emotion (emotion_row ["anger"] "disgusted") = 3%Z
  /\ bucket_emotion (emotion_row ["sadness"; "joy"] (classifier_emotion CNaN)) = 3%Z.
Proof.
  split.
  - apply (unknown_classifier_emotion_never_tolerated (emotion_row ["anger"] "disgusted"));
      decide_by_computation.
  - apply (unknown_classifier_emotion_never_tolerated
             (emotion_row ["sadness"; "joy"] (classifier_emotion CNaN)));
      decide_by_computation.
Defined.

Lemma mixed_lists_every_other_coarse_name :
  Forall (fun m => m = "mixed" \/ adj_lists "mixed" m = true) COARSE.
Proof. eapply bool_decide_eq_true_1. vm_compute. reflexivity. Qed.

Lemma bucket_emotion_tolerated (row : Row) (mm : string) :
  mm ∈ manual_emotions_coarse row ->
  adjacency_test (classifier_emotion_norm row) mm = true ->
  bucket_emotion row <> 3%Z.
Proof.
  intros Hin Hadj. unfold bucket_emotion.
  destruct (_ && _); [discriminate|].
  destruct (bool_decide _); [discriminate|].
  destruct (_ && _); [discriminate|].
  assert (existsb (adjacency_test (classifier_emotion_norm row))
            (elements (py_set (manual_emotions_coarse row))) = true) as ->;
    [|discriminate].
  apply existsb_exists. exists mm. split; [|exact Hadj].
  apply list_elem_of_In, elem_of_elements, elem_of_list_to_set, Hin.
Qed.

Lemma bucket_emotion_member_not_mismatch (row : Row) :
  classifier_emotion_norm row ∈ manual_emotions_coarse row ->
  bucket_emotion row <> 3%Z.
Proof.
  intros Hin. unfold bucket_emotion.
  destruct (_ && _); [discriminate|].
  rewrite (bool_decide_eq_true_2 (_ ∈ _)); [discriminate|].
  apply elem_of_list_to_set, Hin.
Qed.

(** X10: "mixed" tolerates every coarse name. A record is never a mismatch
    (bucket 3) when the classifier says "mixed" and some manual emotion is a
    coarse name or the manual emotions are at least two, nor when "mixed" is
    among the manual emotions and the classifier emotion is a coarse name. *)
Theorem mixed_tolerates_coarse_names (row : Row) :
  (classifier_emotion_norm row = "mixed"
   /\ ((exists m, m ∈ manual_emotions_coarse row /\ m ∈ COARSE)
       \/ 1 < size (py_set (manual_emotions_coarse row))))
  \/ ("mixed" ∈ manual_emotions_coarse row /\ classifier_emotion_norm row ∈ COARSE) ->
  bucket_emotion row <> 3%Z.
Proof.
  intros [[Hc [(m & Hin & Hm)|Hsz]]|[Hin Hc]].
  - destruct (proj1 (Forall_forall _ _) mixed_lists_every_other_coarse_name m Hm)
      as [->|Hadj].
    + apply bucket_emotion_member_not_mismatch. rewrite Hc. exact Hin.
    + apply (bucket_emotion_tolerated row m Hin).
      unfold adjacency_test. rewrite Hc, Hadj. reflexivity.
  - unfold bucket_emotion. rewrite Hc.
    destruct (_ && _); [discriminate|].
    destruct (bool_decide ("mixed" ∈ _)); [discriminate|].
    rewrite (bool_decide_eq_true_2 ("mixed" = "mixed")) by reflexivity.
    rewrite (bool_decide_eq_true_2 _ Hsz). discriminate.
  - destruct (proj1 (Forall_forall _ _) mixed_lists_every_other_coarse_name _ Hc)
      as [Heq|Hadj].
    + apply bucket_emotion_member_not_mismatch. rewrite Heq. exact Hin.
    + apply (bucket_emotion_tolerated row "mixed" Hin).
      unfold adjacency_test. rewrite Hadj. apply orb_true_r.
Qed.

Lemma mixed_tolerates_coarse_names_witness :
  bucket_emotion (emotion_row ["surprise"] "mixed") <> 3%Z
  /\ bucket_emotion (emotion_row ["mixed"] "fear") <> 3%Z.
Proof.
  split.
  - apply (mixed_tolerates_coarse_names (emotion_row ["surprise"] "mixed")).
    left. split; [reflexivity|]. left. exists "surprise".
    split; decide_by_computation.
  - apply (mixed_tolerates_coarse_names (emotion_row ["mixed"] "fear")).
    right. split; decide_by_computation.
Defined.

(** ** Tolerant matching on domains *)

Lemma truthy_lower (s : string) : PyStr.truthy (PyStr.lower s) = PyStr.truthy s.
Proof. destruct s; reflexivity. Qed.

(** X11: [is_domain_adjacent] is symmetric, ignores case (lower-casing both
    arguments first changes nothing), holds of every non-empty string with
    itself, and never holds of the empty string. [lower] is Python's method,
    of which this uses that it is idempotent and gives the empty string for
    the empty string only. *)
Theorem is_domain_adjacent_relation (lower strip : string -> string) (a b : string) :
  py_str_methods lower strip ->
  Generic.is_domain_adjacent lower a b = Generic.is_domain_adjacent lower b a
  /\ Generic.is_domain_adjacent lower (lower a) (lower b)
     = Generic.is_domain_adjacent lower a b
  /\ (a <> "" -> Generic.is_domain_adjacent lower a a = true)
  /\ Generic.is_domain_adjacent lower "" b = false
  /\ Generic.is_domain_adjacent lower a "" = false.
Proof.
  intros L. unfold Generic.is_domain_adjacent.
  split; [|split; [|split; [|split]]].
  - rewrite (orb_comm (negb (PyStr.truthy a))).
    destruct (negb (PyStr.truthy b) || negb (PyStr.truthy a)); [reflexivity|].
    rewrite (bool_decide_ext (lower a = lower b) (lower b = lower a))
      by (split; congruence).
    rewrite <- !orb_assoc. f_equal. apply orb_comm.
  - rewrite !(methods_truthy_lower lower strip L), !(lower_lower _ _ L). reflexivity.
  - intros Ha. apply truthy_true in Ha. rewrite Ha. simpl.
    rewrite (bool_decide_eq_true_2 (_ = _)) by reflexivity. reflexivity.
  - reflexivity.
  - destruct (PyStr.truthy a); reflexivity.
Qed.

Lemma is_domain_adjacent_relation_witness :
  is_domain_adjacent "Family" "Family" = true
  /\ is_domain_adjacent "family" "friends" = is_domain_adjacent "FAMILY" "Friends".
Proof.
  destruct (is_domain_adjacent_relation PyStr.lower PyStr.strip "Family" "Family"
              ascii_methods) as (_ & _ & Hrefl & _).
  destruct (is_domain_adjacent_relation PyStr.lower PyStr.strip "FAMILY" "Friends"
              ascii_methods) as (_ & Hcase & _).
  split.
  - apply Hrefl. discriminate.
  - exact Hcase.
Defined.

Lemma domain_pairs_normal :
  set_Forall (fun p => p.1 <> "" /\ p.2 <> ""
                       /\ PyStr.lower p.1 = p.1 /\ PyStr.lower p.2 = p.2) DOMAIN_ADJ.
Proof. eapply bool_decide_eq_true_1. vm_compute. reflexivity. Qed.

Lemma bucket_domain_tolerated (row : Row) (mm : string) :
  mm ∈ manual_domains_canon row ->
  is_domain_adjacent (classifier_domain_norm row) mm = true ->
  bucket_domain row <> 3%Z.
Proof.
  intros Hin Hadj. unfold bucket_domain.
  destruct (_ && _); [discriminate|].
  destruct (bool_decide _); [discriminate|].
  destruct (_ && _); [discriminate|].
  match goal with |- context [existsb ?f (elements ?X)] =>
    assert (existsb f (elements X) = true) as ->; [|discriminate]
  end.
  apply existsb_exists. exists mm. split; [|exact Hadj].
  apply list_elem_of_In, elem_of_elements, elem_of_list_to_set, list_elem_of_filter.
  split; [|exact Hin]. apply truthy_true. intros ->.
  unfold is_domain_adjacent in Hadj. simpl in Hadj.
  rewrite orb_true_r in Hadj. discriminate.
Qed.

(** X12: a record is never a domain mismatch (bucket 3) when one of its
    manual domains is paired with the classifier domain in [DOMAIN_ADJ], in
    either order, or equals the non-empty classifier domain up to ASCII
    case. *)
Theorem adjacent_domains_never_mismatch (row : Row) (mm : string) :
  mm ∈ manual_domains_canon row ->
  (mm, classifier_domain_norm row) ∈ DOMAIN_ADJ
  \/ (classifier_domain_norm row, mm) ∈ DOMAIN_ADJ
  \/ (mm <> "" /\ PyStr.lower mm = PyStr.lower (classifier_domain_norm row)) ->
  bucket_domain row <> 3%Z.
Proof.
  intros Hin Hrel. apply (bucket_domain_tolerated row mm Hin).
  set (c := classifier_domain_norm row) in *.
  unfold is_domain_adjacent.
  destruct Hrel as [Hp|[Hp|[Hne Heq]]].
  - destruct (domain_pairs_normal _ Hp) as (Hm & Hc & Hlm & Hlc). simpl in *.
    apply truthy_true in Hm, Hc. rewrite Hm, Hc, Hlm, Hlc. simpl.
    rewrite (bool_decide_eq_true_2 ((mm, c) ∈ DOMAIN_ADJ)) by exact Hp.
    apply orb_true_r.
  - destruct (domain_pairs_normal _ Hp) as (Hc & Hm & Hlc & Hlm). simpl in *.
    apply truthy_true in Hm, Hc. rewrite Hm, Hc, Hlm, Hlc. simpl.
    rewrite (bool_decide_eq_true_2 ((c, mm) ∈ DOMAIN_ADJ)) by exact Hp.
    rewrite orb_true_r. reflexivity.
  - assert (PyStr.truthy c = true) as Hc.
    { rewrite <- truthy_lower, <- Heq, truthy_lower. apply truthy_true, Hne. }
    apply truthy_true in Hne. rewrite Hne, Hc. simpl.
    rewrite (bool_decide_eq_true_2 (_ = _)) by congruence. reflexivity.
Qed.

Lemma adjacent_domains_never_mismatch_witness :
  bucket_domain (domain_row ["money/finances"; "family"] "work/career") <> 3%Z
  /\ bucket_domain (domain_row ["Gardening"] "gardening") <> 3%Z.
Proof.
  split.
  - apply (adjacent_domains_never_mismatch
             (domain_row ["money/finances"; "family"] "work/career") "money/finances").
    + decide_by_computation.
    + right. left. decide_by_computation.
  - apply (adjacent_domains_never_mismatch
             (domain_row ["Gardening"] "gardening") "Gardening").
    + decide_by_computation.
    + right. right. split; [discriminate|reflexivity].
Defined.

(** ** The compound rule of [bucket_domain] on canonical labels *)

Lemma alias_values_are_keys :
  map_Forall (fun _ v => DOMAIN_ALIAS !! v = Some v) DOMAIN_ALIAS.
Proof. eapply bool_decide_eq_true_1. vm_compute. reflexivity. Qed.

Lemma alias_parts_are_synonyms :
  map_Forall (fun _ v =>
                PyStr.contains "/" v = true ->
                Forall (fun p => exists w, DOMAIN_ALIAS !! p = Some w /\ w <> p)
                       (PyStr.split "/" v))
             DOMAIN_ALIAS.
Proof.
  assert (map_Forall (fun _ v =>
            PyStr.contains "/" v = false
            \/ Forall (fun p => is_Some (DOMAIN_ALIAS !! p)
                                /\ DOMAIN_ALIAS !! p <> Some p)
                      (PyStr.split "/" v)) DOMAIN_ALIAS) as H.
  { eapply bool_decide_eq_true_1. vm_compute. reflexivity. }
  intros k v Hk Hs. destruct (H k v Hk) as [Hno|Hall]; [congruence|].
  eapply Forall_impl; [exact Hall|]. intros p [[w Hw] Hne]. simpl in *.
  exists w. split; [exact Hw|]. intros ->. contradiction.
Qed.

Lemma canonical_domain_not_a_synonym (x : option string) (p w : string) :
  DOMAIN_ALIAS !! p = Some w -> w <> p -> canonical_domain x <> p.
Proof.
  intros Hp Hne. destruct x as [x|]; simpl.
  - unfold dict_get.
    destruct (DOMAIN_ALIAS !! PyStr.lower (PyStr.strip x)) as [v|] eqn:E.
    + intros ->. apply alias_values_are_keys in E. congruence.
    + intros Heq. rewrite Heq in E. congruence.
  - intros <-. vm_compute in Hp. discriminate Hp.
Qed.

(** X13: between canonical labels the compound rule never fires. If the
    classifier domain is a value of the alias table and the manual domains
    are results of [canonical_domain], no "/"-separated part of the
    classifier domain is a manual domain, so the bucket is 1 exactly when
    the classifier domain itself is among the manual domains. *)
Theorem compound_rule_dead_on_canonical_labels
    (row : Row) (raw : list (option string)) (k : string) :
  manual_domains_canon row = map canonical_domain raw ->
  DOMAIN_ALIAS !! k = Some (classifier_domain_norm row) ->
  (forall p, p ∈ PyStr.split "/" (classifier_domain_norm row) ->
             PyStr.contains "/" (classifier_domain_norm row) = true ->
             p ∉ manual_domains_canon row)
  /\ (bucket_domain row = 1%Z
      <-> classifier_domain_norm row ∈ manual_domains_canon row).
Proof.
  intros Hman Hk.
  assert (forall p, p ∈ PyStr.split "/" (classifier_domain_norm row) ->
             PyStr.contains "/" (classifier_domain_norm row) = true ->
             p ∉ manual_domains_canon row) as Hparts.
  { intros p Hp Hs Hin.
    pose proof (alias_parts_are_synonyms _ _ Hk Hs) as Hall.
    destruct (proj1 (Forall_forall _ _) Hall p Hp) as (w & Hw & Hne).
    rewrite Hman in Hin. apply list_elem_of_fmap in Hin as (x & Hx & _).
    symmetry in Hx. exact (canonical_domain_not_a_synonym x p w Hw Hne Hx). }
  split; [exact Hparts|].
  destruct (bucket_domain_codes row) as [_ Hiff]. simpl in Hiff.
  rewrite Hiff. split.
  - intros [[_ Hin]|(Hs & p & Hp & _ & Hin)]; [exact Hin|].
    destruct (Hparts p Hp Hs Hin).
  - intros Hin. left. split; [|exact Hin].
    intros Hc. rewrite Hc in Hk.
    apply alias_values_are_keys in Hk. vm_compute in Hk. discriminate Hk.
Qed.

Lemma compound_rule_dead_on_canonical_labels_witness :
  bucket_domain (domain_row (map canonical_domain [Some "Work "; Some "love"])
                            "work/career") = 1%Z.
Proof.
  apply (compound_rule_dead_on_canonical_labels
           (domain_row (map canonical_domain [Some "Work "; Some "love"]) "work/career")
           [Some "Work "; Some "love"] "career").
  - reflexivity.
  - reflexivity.
  - decide_by_computation.
Defined.

(** ** Normal forms of the two normalisers *)

Section NormalForms.
Import PyStr.


End NormalForms.






(** X15: the result of [canonical_domain] is lower-cased and stripped, and
    the lower-casing and stripping that [main] applies to the classifier
    domain cell before calling it change nothing: a classifier cell and a
    manual label with the same text get the same canonical domain. [lower]
    and [strip] are Python's methods, of which this uses that they are the
    ASCII methods on ASCII text, idempotent, and that they commute. *)
Theorem canonical_domain_normal_form
    (lower strip : string -> string) (x : option string) (s : string) :
  py_str_methods lower strip ->
  lower (Generic.canonical_domain lower strip x) = Generic.canonical_domain lower strip x
  /\ strip (Generic.canonical_domain lower strip x)
     = Generic.canonical_domain lower strip x
  /\ Generic.classifier_domain lower strip (CStr s)
     = Generic.canonical_domain lower strip (Some s).
Proof.
  intros L. split; [|split].
  - destruct x as [x|]; [|apply (methods_lower_empty lower strip L)].
    unfold Generic.canonical_domain, dict_get.
    destruct (DOMAIN_ALIAS !! lower (strip x)) as [v|] eqn:E.
    + destruct (alias_values_ascii _ v E) as (Ha & _ & _ & Hl & _).
      rewrite (lower_on_ascii _ _ L v Ha). exact Hl.
    + apply (lower_lower _ _ L).
  - destruct x as [x|]; [|apply (methods_strip_empty lower strip L)].
    unfold Generic.canonical_domain, dict_get.
    destruct (DOMAIN_ALIAS !! lower (strip x)) as [v|] eqn:E.
    + destruct (alias_values_ascii _ v E) as (Ha & _ & _ & _ & Hs & _).
      rewrite (strip_on_ascii _ _ L v Ha). exact Hs.
    + apply (methods_norm_stripped lower strip L).
  - unfold Generic.classifier_domain, Generic.canonical_domain, astype_str.
    rewrite (strip_strip _ _ L), (strip_lower_commute _ _ L), (lower_lower _ _ L).
    reflexivity.
Qed.

Lemma canonical_domain_normal_form_witness :
  PyStr.lower (canonical_domain (Some " Work ")) = canonical_domain (Some " Work ")
  /\ PyStr.strip (canonical_domain (Some " Work ")) = canonical_domain (Some " Work ")
  /\ classifier_domain (CStr " Work ") = canonical_domain (Some " Work ").
Proof.
  apply (canonical_domain_normal_form PyStr.lower PyStr.strip (Some " Work ") " Work "
           ascii_methods).
Defined.

(** ** The coarse manual emotions *)

Lemma sorted_elements_spec (l : list string) :
  Sorted String.le (sorted (elements (py_set l)))
  /\ NoDup (sorted (elements (py_set l)))
  /\ forall y, y ∈ sorted (elements (py_set l)) <-> y ∈ l.
Proof.
  unfold sorted, py_set. split; [apply (Sorted_merge_sort String.le)|]. split.
  - rewrite merge_sort_Permutation. apply NoDup_elements.
  - intros y. rewrite merge_sort_Permutation, elem_of_elements.
    apply elem_of_list_to_set.
Qed.

Lemma sorted_elements_ext (l1 l2 : list string) :
  (forall y, y ∈ l1 <-> y ∈ l2) ->
  sorted (elements (py_set l1)) = sorted (elements (py_set l2)).
Proof.
  intros Hext.
  destruct (sorted_elements_spec l1) as (Hs1 & Hn1 & Hm1).
  destruct (sorted_elements_spec l2) as (Hs2 & Hn2 & Hm2).
  apply (Sorted_unique String.le); [exact Hs1|exact Hs2|].
  apply NoDup_Permutation; [exact Hn1|exact Hn2|].
  intros y. rewrite Hm1, Hm2. apply Hext.
Qed.

Lemma emotion_map_values_fixed :
  map_Forall (fun _ v => dict_get EMOTION_MAP v v = v /\ v ∈ COARSE) EMOTION_MAP.
Proof. eapply bool_decide_eq_true_1. vm_compute. reflexivity. Qed.

Lemma emotion_map_get_idem (x : string) :
  dict_get EMOTION_MAP (dict_get EMOTION_MAP x x) (dict_get EMOTION_MAP x x)
  = dict_get EMOTION_MAP x x.
Proof.
  unfold dict_get at 2 3 4. destruct (EMOTION_MAP !! x) as [v|] eqn:E.
  - apply (emotion_map_values_fixed _ _ E).
  - unfold dict_get. rewrite E. reflexivity.
Qed.

(** X16: [map_manual_emotions] returns the coarse images of the manual
    words ([EMOTION_MAP.get(x, x)]) as a list sorted by string order and
    without duplicates, so the set [bucket_emotion] builds from it has as
    many elements as the list. *)
Theorem map_manual_emotions_sorted_set (lst : list string) :
  Sorted String.le (map_manual_emotions lst)
  /\ NoDup (map_manual_emotions lst)
  /\ (forall y, y ∈ map_manual_emotions lst
                <-> exists x, x ∈ lst /\ y = dict_get EMOTION_MAP x x)
  /\ size (py_set (map_manual_emotions lst)) = length (map_manual_emotions lst).
Proof.
  unfold map_manual_emotions.
  destruct (sorted_elements_spec (map (fun x => dict_get EMOTION_MAP x x) lst))
    as (Hs & Hn & Hm).
  split; [exact Hs|]. split; [exact Hn|]. split.
  - intros y. rewrite Hm, list_elem_of_fmap. split.
    + intros (x & -> & Hx). eauto.
    + intros (x & Hx & ->). eauto.
  - unfold py_set. apply size_list_to_set, Hn.
Qed.

(** X17: the coarse manual emotions depend only on which words occur, not
    on their order or repetition, and mapping them again changes nothing;
    when every word is a key of [EMOTION_MAP] every coarse emotion is one of
    the eight coarse names. *)
Theorem map_manual_emotions_canonical (l1 l2 : list string) :
  ((forall x, x ∈ l1 <-> x ∈ l2) -> map_manual_emotions l1 = map_manual_emotions l2)
  /\ map_manual_emotions (map_manual_emotions l1) = map_manual_emotions l1
  /\ (Forall (fun x => is_Some (EMOTION_MAP !! x)) l1 ->
      Forall (fun y => y ∈ COARSE) (map_manual_emotions l1)).
Proof.
  unfold map_manual_emotions. split; [|split].
  - intros Hext. apply sorted_elements_ext. intros y.
    rewrite !list_elem_of_fmap. split; intros (x & -> & Hx); exists x;
      (split; [reflexivity|apply Hext, Hx]).
  - apply sorted_elements_ext. intros y.
    destruct (sorted_elements_spec (map (fun x => dict_get EMOTION_MAP x x) l1))
      as (_ & _ & Hm).
    rewrite list_elem_of_fmap. split.
    + intros (z & -> & Hz). apply Hm, list_elem_of_fmap in Hz as (x & -> & Hx).
      rewrite emotion_map_get_idem. apply list_elem_of_fmap. eauto.
    + intros Hy. exists y. split; [|apply Hm, Hy].
      apply list_elem_of_fmap in Hy as (x & -> & Hx).
      symmetry. apply emotion_map_get_idem.
  - intros Hkeys. apply Forall_forall. intros y Hy.
    destruct (sorted_elements_spec (map (fun x => dict_get EMOTION_MAP x x) l1))
      as (_ & _ & Hm).
    apply Hm, list_elem_of_fmap in Hy as (x & -> & Hx).
    destruct (proj1 (Forall_forall _ _) Hkeys x Hx) as [v Hv].
    unfold dict_get. rewrite Hv. apply (emotion_map_values_fixed _ _ Hv).
Qed.

Lemma map_manual_emotions_canonical_witness :
  map_manual_emotions ["sad"; "happy"; "sad"] = map_manual_emotions ["happy"; "sad"]
  /\ Forall (fun y => y ∈ COARSE) (map_manual_emotions ["sad"; "happy"; "sad"]).
Proof.
  destruct (map_manual_emotions_canonical ["sad"; "happy"; "sad"] ["happy"; "sad"])
    as (Hext & _ & Hcoarse).
  split.
  - apply Hext. intros x. split; intros Hx.
    + apply elem_of_cons in Hx as [->|Hx]; [right; left|exact Hx].
    + right. exact Hx.
  - apply Hcoarse. repeat constructor; eexists; reflexivity.
Defined.

(** ** Runs of [main] *)

Lemma mapM_result_length {A B} (f : A -> result B) (l : list A) (k : list B) :
  mapM f l = Ok k -> length k = length l.
Proof.
  revert k. induction l as [|x l IH]; intros k; simpl.
  - intros [= <-]. reflexivity.
  - destruct (f x) as [y|e]; simpl; [|discriminate].
    destruct (mapM f l) as [k'|e]; simpl; [|discriminate].
    intros [= <-]. simpl. rewrite (IH k' eq_refl). reflexivity.
Qed.

Lemma mapM_result_cons {A B} (f : A -> result B) (x : A) (l : list A) :
  mapM f (x :: l) = (y ← f x; k ← mapM f l; mret (y :: k)).
Proof. reflexivity. Qed.

Lemma strs_of_strings (l : list string) : strs_of (PStr <$> l) = Some l.
Proof.
  induction l as [|x l IH]; [reflexivity|].
  change (strs_of (PStr <$> x :: l)) with (cons x <$> strs_of (PStr <$> l)).
  rewrite IH. reflexivity.
Qed.

Lemma mapM_string_lists {A B} (g : A -> list string) (f : list string -> B) (l : list A) :
  mapM (fun v => f <$> tokens v) (map (fun r => PList (PStr <$> g r)) l)
  = Ok (map (fun r => f (g r)) l).
Proof.
  induction l as [|r l IH]; [reflexivity|].
  cbn [map]. rewrite mapM_result_cons, IH.
  unfold tokens. rewrite strs_of_strings. reflexivity.
Qed.

Lemma manual_labels_length literal_eval (df : DataFrame) :
  length (manual_labels literal_eval df).1 = length (rows df)
  /\ length (manual_labels literal_eval df).2 = length (rows df).
Proof.
  unfold manual_labels. destruct (_ || _); simpl; rewrite !length_map; auto.
Qed.

Lemma column_length (df : DataFrame) (c : string) (l : list cell) :
  column df c = Ok l -> length l = length (rows df).
Proof.
  unfold column. destruct (bool_decide _); [|discriminate].
  intros [= <-]. apply length_map.
Qed.

Lemma column_missing (df : DataFrame) (c : string) :
  c ∉ columns df -> column df c = Raise (KeyError c).
Proof. intros H. unfold column. rewrite (bool_decide_eq_false_2 _ H). reflexivity. Qed.

Lemma zip_rows_length (coarse canon : list (list string)) (emo dom : list string) n :
  length coarse = n -> length emo = n -> length canon = n -> length dom = n ->
  length (zip_rows coarse emo canon dom) = n.
Proof.
  intros H1 H2 H3 H4. unfold zip_rows.
  rewrite length_zip_with, !length_zip. lia.
Qed.

Lemma bucket_emotion_codes (row : Row) :
  bucket_emotion row = 1%Z \/ bucket_emotion row = 2%Z \/ bucket_emotion row = 3%Z.
Proof.
  unfold bucket_emotion.
  destruct (_ && _); [auto|]. destruct (bool_decide _); [auto|].
  destruct (_ && _); [auto|]. destruct (existsb _ _); auto.
Qed.

(** X18: a run of [main] that completes keeps every record: the two manual
    columns, the derived rows and both bucket columns have one entry per
    input row, and every bucket code is 1, 2 or 3. *)
Theorem main_keeps_every_record literal_eval (df : DataFrame) (out : Output) :
  main literal_eval df = Ok out ->
  length (manual_emotions out) = length (rows df)
  /\ length (manual_domains out) = length (rows df)
  /\ length (derived out) = length (rows df)
  /\ length (bucket_emotion_col out) = length (rows df)
  /\ length (bucket_domain_col out) = length (rows df)
  /\ Forall (fun b => b = 1%Z \/ b = 2%Z \/ b = 3%Z)
            (bucket_emotion_col out ++ bucket_domain_col out).
Proof.
  unfold main.
  pose proof (manual_labels_length literal_eval df) as [Hle Hld].
  destruct (manual_labels literal_eval df) as [m_emo m_dom]. simpl in Hle, Hld.
  destruct (mapM _ m_emo) as [coarse|e] eqn:Ec; [|discriminate].
  apply mapM_result_length in Ec. cbn [mbind result_bind].
  destruct (column df "EmotionPro") as [emo|e] eqn:Ee; [|discriminate].
  apply column_length in Ee. cbn [mbind result_bind].
  destruct (column df "DomainPro") as [dom|e] eqn:Ed; [|discriminate].
  apply column_length in Ed. cbn [mbind result_bind].
  destruct (mapM _ m_dom) as [canon|e] eqn:Ek; [|discriminate].
  apply mapM_result_length in Ek. cbn [mbind result_bind].
  destruct (bool_decide (rows df = [])); [discriminate|].
  intros [= <-].
  cbn [manual_emotions manual_domains derived bucket_emotion_col bucket_domain_col].
  assert (length (zip_rows coarse (map classifier_emotion emo) canon
                           (map classifier_domain dom)) = length (rows df)) as Hz.
  { apply zip_rows_length; rewrite ?length_map; congruence. }
  rewrite !length_map. repeat (split; [assumption|]).
  apply Forall_app. split; apply Forall_forall; intros b Hb;
    apply list_elem_of_fmap in Hb as (r & -> & _).
  - apply bucket_emotion_codes.
  - apply (bucket_domain_codes r).
Qed.

Lemma main_keeps_every_record_witness :
  match main LiteralEval.literal_eval unlabelled_table with
  | Ok out => length (derived out) = 1 /\ length (bucket_emotion_col out) = 1
  | Raise _ => False
  end.
Proof.
  destruct (main LiteralEval.literal_eval unlabelled_table) as [out|e] eqn:E.
  - destruct (main_keeps_every_record _ _ _ E) as (_ & _ & Hd & Hb & _).
    split; [exact Hd|exact Hb].
  - vm_compute in E. discriminate E.
Defined.

Lemma manual_labels_from_annotations literal_eval (df : DataFrame) :
  "manual_emotions" ∉ columns df \/ "manual_domains" ∉ columns df ->
  exists g_emo g_dom : list cell -> list string,
    manual_labels literal_eval df
    = (map (fun r => PList (PStr <$> g_emo r)) (rows df),
       map (fun r => PList (PStr <$> g_dom r)) (rows df)).
Proof.
  intros Hmiss. unfold manual_labels.
  assert (negb (bool_decide ("manual_emotions" ∈ columns df))
          || negb (bool_decide ("manual_domains" ∈ columns df)) = true) as ->.
  { apply orb_true_iff. destruct Hmiss as [H|H]; [left|right];
      apply negb_true_iff, bool_decide_eq_false_2, H. }
  eexists _, _. reflexivity.
Qed.

(** X19: the two classifier columns are required. Without an "EmotionPro"
    or a "DomainPro" column no run of [main] completes; when the manual
    labels are built from the annotation columns the exception is the
    KeyError of the first of the two that is missing. *)
Theorem main_requires_classifier_columns literal_eval (df : DataFrame) :
  "EmotionPro" ∉ columns df \/ "DomainPro" ∉ columns df ->
  (exists e, main literal_eval df = Raise e)
  /\ ("manual_emotions" ∉ columns df \/ "manual_domains" ∉ columns df ->
      main literal_eval df
      = Raise (KeyError (if decide ("EmotionPro" ∈ columns df)
                         then "DomainPro" else "EmotionPro"))).
Proof.
  intros Hmiss. split.
  - unfold main. destruct (manual_labels literal_eval df) as [m_emo m_dom].
    destruct (mapM _ m_emo) as [coarse|e]; [|eauto]. cbn [mbind result_bind].
    destruct (decide ("EmotionPro" ∈ columns df)) as [He|He].
    + rewrite (column_present _ _ He). cbn [mbind result_bind].
      destruct Hmiss as [H|Hd]; [contradiction|].
      rewrite (column_missing _ _ Hd). eauto.
    + rewrite (column_missing _ _ He). eauto.
  - intros Hann.
    destruct (manual_labels_from_annotations literal_eval df Hann)
      as (g_emo & g_dom & Hlab).
    unfold main. rewrite Hlab.
    rewrite (mapM_string_lists g_emo map_manual_emotions). cbn [mbind result_bind].
    destruct (decide ("EmotionPro" ∈ columns df)) as [He|He].
    + rewrite (column_present _ _ He). cbn [mbind result_bind].
      destruct Hmiss as [H|Hd]; [contradiction|].
      rewrite (column_missing _ _ Hd). reflexivity.
    + rewrite (column_missing _ _ He). reflexivity.
Qed.

Lemma main_requires_classifier_columns_witness :
  main LiteralEval.literal_eval
    {| columns := ["Answer.f1.happy.raw"; "EmotionPro"];
       rows := [[CBool true; CStr "Joy"]] |}
  = Raise (KeyError "DomainPro").
Proof.
  apply (main_requires_classifier_columns LiteralEval.literal_eval
           {| columns := ["Answer.f1.happy.raw"; "EmotionPro"];
              rows := [[CBool true; CStr "Joy"]] |}).
  - right. decide_by_computation.
  - left. decide_by_computation.
Defined.

(** X20: with the manual labels built from the annotation columns (one of
    the two manual columns is missing) and both classifier columns present,
    a run of [main] on a table with at least one row always completes. *)
Theorem main_completes_on_annotation_tables literal_eval (df : DataFrame) :
  rows df <> [] ->
  "manual_emotions" ∉ columns df \/ "manual_domains" ∉ columns df ->
  "EmotionPro" ∈ columns df ->
  "DomainPro" ∈ columns df ->
  exists out, main literal_eval df = Ok out.
Proof.
  intros Hrows Hann He Hd.
  destruct (manual_labels_from_annotations literal_eval df Hann)
    as (g_emo & g_dom & Hlab).
  unfold main. rewrite Hlab.
  rewrite (mapM_string_lists g_emo map_manual_emotions). cbn [mbind result_bind].
  rewrite (column_present _ _ He). cbn [mbind result_bind].
  rewrite (column_present _ _ Hd). cbn [mbind result_bind].
  rewrite (mapM_string_lists g_dom (map (fun x => canonical_domain (Some x)))).
  cbn [mbind result_bind]. rewrite (bool_decide_eq_false_2 _ Hrows). eauto.
Qed.

Lemma main_completes_on_annotation_tables_witness :
  exists out, main LiteralEval.literal_eval angry_disgusted_table = Ok out.
Proof.
  apply (main_completes_on_annotation_tables LiteralEval.literal_eval angry_disgusted_table).
  - discriminate.
  - left. decide_by_computation.
  - decide_by_computation.
  - decide_by_computation.
Defined.

(** ** [ensure_list], for every evaluator *)

(** X21: whatever [ast.literal_eval] does, [ensure_list] returns something
    other than a list exactly on a string whose text evaluates to a non-list
    value; a list is returned as it is, and for a string that does not
    evaluate and for every cell that is not a string (a missing value, a
    number, a boolean) the result is the empty list. *)
Theorem ensure_list_result (literal_eval : string -> option pyval) (x : pyval) :
  (is_list (ensure_list literal_eval x) = false
   <-> exists s v, x = PStr s /\ literal_eval s = Some v /\ is_list v = false)
  /\ (forall l, x = PList l -> ensure_list literal_eval x = PList l)
  /\ (forall s, x = PStr s -> literal_eval s = None ->
                ensure_list literal_eval x = PList [])
  /\ (forall c, (forall s, c <> CStr s) -> x = of_cell c ->
                ensure_list literal_eval x = PList []).
Proof.
  split; [|split; [|split]].
  - split.
    + destruct x as [| | | |s|l]; simpl; try discriminate.
      destruct (literal_eval s) as [v|] eqn:E; [|discriminate]. eauto.
    + intros (s & v & -> & Hs & Hv). simpl. rewrite Hs. exact Hv.
  - intros l ->. reflexivity.
  - intros s -> Hs. simpl. rewrite Hs. reflexivity.
  - intros c Hc ->. destruct c as [| | |s]; try reflexivity. destruct (Hc s eq_refl).
Qed.

Lemma ensure_list_result_witness :
  is_list (ensure_list LiteralEval.literal_eval (PStr "None")) = false
  /\ ensure_list LiteralEval.literal_eval (PStr "happy, sad") = PList []
  /\ ensure_list LiteralEval.literal_eval (of_cell CNaN) = PList [].
Proof.
  split; [|split].
  - apply (ensure_list_result LiteralEval.literal_eval (PStr "None")).
    exists "None", PNone. repeat split.
  - apply (proj1 (proj2 (proj2 (ensure_list_result LiteralEval.literal_eval
                                  (PStr "happy, sad")))) "happy, sad"); reflexivity.
  - apply (proj2 (proj2 (proj2 (ensure_list_result LiteralEval.literal_eval
                                  (of_cell CNaN)))) CNaN); [discriminate|reflexivity].
Defined.

(** ** The bucket counts of the summary *)

Lemma value_counts_lookup (col : list Z) (b : Z) :
  value_counts col !! b
  = let n := length (filter (fun x => x = b) col) in
    if decide (n = 0) then None else Some n.
Proof.
  induction col as [|x col IH]; [reflexivity|].
  cbn [value_counts foldr]. fold (value_counts col).
  rewrite filter_cons. destruct (decide (x = b)) as [-> | Hne].
  - rewrite lookup_insert_eq, IH. cbn zeta.
    destruct (decide (length (filter (fun x => x = b) col) = 0)) as [H0|H0];
      simpl; [rewrite H0|]; reflexivity.
  - rewrite lookup_insert_ne by exact Hne. exact IH.
Qed.

Lemma count_by_code (col : list Z) :
  Forall (fun b => b = 1%Z \/ b = 2%Z \/ b = 3%Z) col ->
  length (filter (fun x => x = 1%Z) col) + length (filter (fun x => x = 2%Z) col)
  + length (filter (fun x => x = 3%Z) col) = length col.
Proof.
  induction 1 as [|b col Hb _ IH]; [reflexivity|].
  rewrite !filter_cons.
  destruct Hb as [-> | [-> | ->]]; repeat case_decide; try discriminate; simpl; lia.
Qed.

Lemma main_bucket_columns literal_eval (df : DataFrame) (out : Output) :
  main literal_eval df = Ok out ->
  bucket_emotion_col out = map bucket_emotion (derived out)
  /\ bucket_domain_col out = map bucket_domain (derived out)
  /\ length (derived out) = length (rows df).
Proof.
  unfold main.
  pose proof (manual_labels_length literal_eval df) as [Hle Hld].
  destruct (manual_labels literal_eval df) as [m_emo m_dom]. simpl in Hle, Hld.
  destruct (mapM _ m_emo) as [coarse|e] eqn:Ec; [|discriminate].
  apply mapM_result_length in Ec. cbn [mbind result_bind].
  destruct (column df "EmotionPro") as [emo|e] eqn:Ee; [|discriminate].
  apply column_length in Ee. cbn [mbind result_bind].
  destruct (column df "DomainPro") as [dom|e] eqn:Ed; [|discriminate].
  apply column_length in Ed. cbn [mbind result_bind].
  destruct (mapM _ m_dom) as [canon|e] eqn:Ek; [|discriminate].
  apply mapM_result_length in Ek. cbn [mbind result_bind].
  destruct (bool_decide (rows df = [])); [discriminate|].
  intros [= <-]. cbn [derived bucket_emotion_col bucket_domain_col].
  split; [reflexivity|]. split; [reflexivity|].
  apply zip_rows_length; rewrite ?length_map; congruence.
Qed.

(** X22: in the summary of a completed run, the entry of a bucket in
    [emotion_buckets] (and in [domain_buckets]) is the number of records
    with that bucket, a bucket no record has is absent rather than 0, and
    the entries for 1, 2 and 3 add up to the number of input rows. *)
Theorem summary_counts literal_eval (df : DataFrame) (out : Output) (args : Args) :
  main literal_eval df = Ok out ->
  let s := summary args out in
  let n_emo b := length (filter (fun r => bucket_emotion r = b) (derived out)) in
  let n_dom b := length (filter (fun r => bucket_domain r = b) (derived out)) in
  (forall b, emotion_buckets s !! b = if decide (n_emo b = 0) then None else Some (n_emo b))
  /\ (forall b, domain_buckets s !! b = if decide (n_dom b = 0) then None else Some (n_dom b))
  /\ n_emo 1%Z + n_emo 2%Z + n_emo 3%Z = length (rows df)
  /\ n_dom 1%Z + n_dom 2%Z + n_dom 3%Z = length (rows df).
Proof.
  intros Hrun s n_emo n_dom.
  destruct (main_bucket_columns _ _ _ Hrun) as (He & Hd & Hlen).
  assert (forall (f : Row -> Z) b l,
            length (filter (fun x => x = b) (map f l))
            = length (filter (fun r => f r = b) l)) as Hcount.
  { intros f b l. induction l as [|r l IH]; [reflexivity|].
    cbn [map]. rewrite !filter_cons. destruct (decide (f r = b)); simpl; rewrite IH;
      reflexivity. }
  unfold s, summary. cbn [emotion_buckets domain_buckets]. rewrite He, Hd.
  split; [|split; [|split]].
  - intros b. rewrite value_counts_lookup. cbn zeta. rewrite Hcount. reflexivity.
  - intros b. rewrite value_counts_lookup. cbn zeta. rewrite Hcount. reflexivity.
  - unfold n_emo. rewrite <- !Hcount, count_by_code, length_map; [exact Hlen|].
    apply Forall_forall. intros b Hb. apply list_elem_of_fmap in Hb as (r & -> & _).
    apply bucket_emotion_codes.
  - unfold n_dom. rewrite <- !Hcount, count_by_code, length_map; [exact Hlen|].
    apply Forall_forall. intros b Hb. apply list_elem_of_fmap in Hb as (r & -> & _).
    apply (bucket_domain_codes r).
Qed.

Lemma summary_counts_witness :
  match main LiteralEval.literal_eval unlabelled_table with
  | Ok out =>
      emotion_buckets (summary (default_args "in.csv") out) !! 3%Z = Some 1
      /\ emotion_buckets (summary (default_args "in.csv") out) !! 1%Z = None
  | Raise _ => False
  end.
Proof.
  destruct (main LiteralEval.literal_eval unlabelled_table) as [out|e] eqn:E.
  - destruct (summary_counts _ _ _ (default_args "in.csv") E) as (Hs & _).
    rewrite !Hs. vm_compute in E. injection E as <-. split; reflexivity.
  - vm_compute in E. discriminate E.
Defined.

(** ** Confusion pairs over several records *)

(** X23: the confusion pairs of a table are those of its records taken in
    order: the pair list of two tables put end to end is the concatenation
    of their pair lists, and a table with no bucket-3 record has no pair, so
    its confusion table has neither row nor column. This holds of the
    emotion pairs and of the domain pairs. *)
Theorem confusion_pairs_compose (df1 df2 : list Row) :
  emo_pairs (df1 ++ df2) = emo_pairs df1 ++ emo_pairs df2
  /\ dom_pairs (df1 ++ df2) = dom_pairs df1 ++ dom_pairs df2
  /\ (Forall (fun r => bucket_emotion r <> 3%Z) df1 ->
      crosstab (emo_pairs df1) = {| index := []; labels := []; counts := [] |})
  /\ (Forall (fun r => bucket_domain r <> 3%Z) df1 ->
      crosstab (dom_pairs df1) = {| index := []; labels := []; counts := [] |}).
Proof.
  unfold emo_pairs, dom_pairs. rewrite !pairs_loop_filter, !flat_map_app.
  split; [reflexivity|]. split; [reflexivity|]. split.
  - intros Hall.
    assert (flat_map (fun r => if decide (bucket_emotion r = 3%Z)
                               then emitted manual_emotions_coarse classifier_emotion_norm r
                               else []) df1 = []) as ->; [|reflexivity].
    induction Hall as [|r l Hr _ IH]; [reflexivity|].
    simpl. rewrite decide_False by exact Hr. exact IH.
  - intros Hall.
    assert (flat_map (fun r => if decide (bucket_domain r = 3%Z)
                               then emitted manual_domains_canon classifier_domain_norm r
                               else []) df1 = []) as ->; [|reflexivity].
    induction Hall as [|r l Hr _ IH]; [reflexivity|].
    simpl. rewrite decide_False by exact Hr. exact IH.
Qed.

Lemma confusion_pairs_compose_witness :
  crosstab (emo_pairs [emotion_row ["joy"] "joy"; emotion_row ["joy"] "neutral"])
  = {| index := []; labels := []; counts := [] |}.
Proof.
  apply (confusion_pairs_compose
           [emotion_row ["joy"] "joy"; emotion_row ["joy"] "neutral"] []).
  repeat constructor; vm_compute; discriminate.
Defined.

Example run_on_table_without_rows :
  main LiteralEval.literal_eval
    {| columns := ["manual_emotions"; "manual_domains"; "EmotionPro"; "DomainPro"];
       rows := [] |}
  = Raise ValueError
  /\ main LiteralEval.literal_eval
       {| columns := ["manual_emotions"; "manual_domains"; "DomainPro"]; rows := [] |}
     = Raise (KeyError "EmotionPro").
Proof. split; vm_compute; reflexivity. Qed.
